(** * photos_creation_date_overwrite: the EXIF date reconciler, verified

    A shallow embedding of [photos_creation_date_overwrite/__main__.py]
    and of the library calls it makes ([re.search], [datetime.strptime],
    [datetime.strftime], [bytes.decode], [str.encode], [shutil.copy2],
    [piexif.load/dump/insert]), followed by the properties of the
    reconciliation policy.

    Conventions of the model.
    - Python [str] is [string], holding the bytes of the UTF-8 form of
      the text: a character is one to four bytes, read by [utf8_next].
      The classes [\d] and [\s] of [re] are those of Unicode 14.0 (the
      tables of CPython 3.11): [\d] is any decimal digit of any script.
    - Python [bytes] is [list Byte.byte].
    - The standard library is that of CPython 3.11 on Linux: [strftime]
      is the one of glibc, which does not fill [%Y].
    - Python [int] is [N] wherever the program only counts upwards.
    - A Python exception is a value of [exn]; a call that may raise
      returns [result].  Code that prints or touches the file system runs
      in the monad [M], which threads the file system [fsys], collects
      the printed lines, and keeps whatever was printed or written before
      an exception was raised.
    - The JPEG/EXIF codec is not part of the program: its three entry
      points are parameters of the development (a [Section]), and every
      theorem holds for whatever the codec does. *)

From Stdlib Require Import NArith Ascii String List Lia Bool.
From Stdlib.Strings Require Import Byte.
From stdpp Require Import base option list strings gmap pretty.

Open Scope string_scope.
Open Scope list_scope.
Open Scope N_scope.

(** ** Exceptions and results *)

(** The subclasses of [Exception] that can reach the program.
    [CodecError] stands for anything the codec raises
    ([InvalidImageDataError], [struct.error], ...). *)
Inductive exn :=
| ValueError
| UnicodeDecodeError
| AttributeError
| KeyError
| FileNotFoundError
| IsADirectoryError
| CodecError (code : N).

Inductive result (A : Type) :=
| Return (a : A)
| Raise (e : exn).
Arguments Return {A} a.
Arguments Raise {A} e.

Definition rbind {A B} (r : result A) (k : A -> result B) : result B :=
  match r with
  | Return a => k a
  | Raise e => Raise e
  end.

Definition raises {A} (r : result A) : bool :=
  match r with Raise _ => true | Return _ => false end.

(** ** Text *)

Definition code (c : ascii) : N := N_of_ascii c.

(** The decimal value of an ASCII digit: the classes [[0-9]], [[1-2]],
    ... of a pattern accept these only. *)
Definition digit_value (c : ascii) : option N :=
  if (48 <=? code c) && (code c <=? 57) then Some (code c - 48) else None.

(** White space among the ASCII characters, as a format string has it. *)
Definition is_space (c : ascii) : bool :=
  ((9 <=? code c) && (code c <=? 13)) || ((28 <=? code c) && (code c <=? 32)).

(** Case folding of [re.IGNORECASE] on ASCII letters. *)
Definition lower (c : ascii) : ascii :=
  if (65 <=? code c) && (code c <=? 90) then ascii_of_N (code c + 32) else c.

Definition dec_digit (n : N) : ascii := ascii_of_N (48 + n mod 10).

(** [%02d] and [%04d]. *)
Definition pad2 (n : N) : string :=
  String (dec_digit (n / 10)) (String (dec_digit n) "").

Definition pad4 (n : N) : string :=
  String (dec_digit (n / 1000)) (String (dec_digit (n / 100))
    (String (dec_digit (n / 10)) (String (dec_digit n) ""))).

(** The six bits of a continuation byte. *)
Definition continuation (c : ascii) : option N :=
  if (128 <=? code c) && (code c <? 192) then Some (code c - 128) else None.

(** The first character of a text and the text after it: strict UTF-8,
    with no overlong form, no surrogate and nothing above U+10FFFF. *)
Definition utf8_next (s : string) : option (N * string) :=
  match s with
  | "" => None
  | String c r =>
    let n := code c in
    if n <? 128 then Some (n, r)
    else if n <? 194 then None
    else if n <? 224 then
      match r with
      | String c1 r1 =>
        match continuation c1 with
        | Some a => Some ((n - 192) * 64 + a, r1)
        | None => None
        end
      | _ => None
      end
    else if n <? 240 then
      match r with
      | String c1 (String c2 r2) =>
        match continuation c1, continuation c2 with
        | Some a, Some b =>
          let cp := (n - 224) * 4096 + a * 64 + b in
          if (2048 <=? cp) && negb ((55296 <=? cp) && (cp <=? 57343))
          then Some (cp, r2) else None
        | _, _ => None
        end
      | _ => None
      end
    else if n <? 245 then
      match r with
      | String c1 (String c2 (String c3 r3)) =>
        match continuation c1, continuation c2, continuation c3 with
        | Some a, Some b, Some c =>
          let cp := (n - 240) * 262144 + a * 4096 + b * 64 + c in
          if (65536 <=? cp) && (cp <=? 1114111) then Some (cp, r3) else None
        | _, _, _ => None
        end
      | _ => None
      end
    else None
  end.

(** The digit zero of every script of Unicode 14.0 that has decimal
    digits; the nine code points after each are its digits one to nine. *)
Definition decimal_zeros : list N :=
  [
   48; 1632; 1776; 1984; 2406; 2534; 2662; 2790; 2918; 3046;
   3174; 3302; 3430; 3558; 3664; 3792; 3872; 4160; 4240; 6112;
   6160; 6470; 6608; 6784; 6800; 6992; 7088; 7232; 7248; 42528;
   43216; 43264; 43472; 43504; 43600; 44016; 65296; 66720; 68912; 69734;
   69872; 69942; 70096; 70384; 70736; 70864; 71248; 71360; 71472; 71904;
   72016; 72784; 73040; 73120; 92768; 92864; 93008; 120782; 120792; 120802;
   120812; 120822; 123200; 123632; 125264; 130032].

(** [\d], with the value [int] gives the digit. *)
Definition decimal_value (cp : N) : option N :=
  (fun z => cp - z) <$> List.find (fun z => (z <=? cp) && (cp <=? z + 9)) decimal_zeros.

(** [\s] of a [str] pattern. *)
Definition whitespace_ranges : list (N * N) :=
  [(9, 13); (28, 32); (133, 133); (160, 160); (5760, 5760); (8192, 8202);
   (8232, 8233); (8239, 8239); (8287, 8287); (12288, 12288)].

Definition is_whitespace (cp : N) : bool :=
  existsb (fun '(lo, hi) => (lo <=? cp) && (cp <=? hi)) whitespace_ranges.

(** [str.encode('utf-8')]: the bytes the text is held as. *)
Definition encode_utf8 (s : string) : list Byte.byte := String.list_byte_of_string s.

(** Every character of the text is well formed; [fuel] bounds the
    number of characters. *)
Fixpoint well_formed (fuel : nat) (s : string) : bool :=
  match s with
  | "" => true
  | _ =>
    match fuel with
    | O => false
    | S fuel' =>
      match utf8_next s with
      | Some (_, r) => well_formed fuel' r
      | None => false
      end
    end
  end.

(** [bytes.decode('utf-8')] (strict): the text the bytes spell, or
    [UnicodeDecodeError] at an ill-formed byte. *)
Definition decode_utf8 (bs : list Byte.byte) : result string :=
  let s := String.string_of_list_byte bs in
  if well_formed (String.length s) s then Return s else Raise UnicodeDecodeError.

(** A text of ASCII characters only. *)
Fixpoint ascii_text (s : string) : bool :=
  match s with
  | "" => true
  | String c r => (code c <? 128) && ascii_text r
  end.

(** ** [datetime] *)

Record datetime := mk_datetime {
  year : N; month : N; day : N; hour : N; minute : N; second : N
}.

(** [datetime.date()], compared with [==] at line 57. *)
Definition date_part (dt : datetime) : N * N * N := (year dt, month dt, day dt).

Definition date_eqb (a b : N * N * N) : bool :=
  let '(y1, m1, d1) := a in
  let '(y2, m2, d2) := b in
  (y1 =? y2) && (m1 =? m2) && (d1 =? d2).

Definition is_leap (y : N) : bool :=
  (y mod 4 =? 0) && (negb (y mod 100 =? 0) || (y mod 400 =? 0)).

Definition days_in_month (y m : N) : N :=
  if m =? 2 then (if is_leap y then 29 else 28)
  else if (m =? 4) || (m =? 6) || (m =? 9) || (m =? 11) then 30
  else 31.

Definition valid_date (y m d : N) : bool :=
  (1 <=? y) && (y <=? 9999) && (1 <=? m) && (m <=? 12)
  && (1 <=? d) && (d <=? days_in_month y m).

Definition valid_time (h mi s : N) : bool :=
  (h <=? 23) && (mi <=? 59) && (s <=? 59).

(** The constructor [datetime(y, m, d, H, M, S)]: [ValueError] outside the
    calendar. *)
Definition datetime_new (y m d h mi s : N) : result datetime :=
  if valid_date y m d && valid_time h mi s
  then Return (mk_datetime y m d h mi s)
  else Raise ValueError.

(** ** [datetime.strftime]

    The directives the program uses.  CPython hands the format to the
    [strftime] of the C library, and that of glibc prints [%Y] as the
    decimal numeral of the year with no filling: a year below 1000 has
    fewer than four digits.  The other directives are two digits, filled
    with a zero.  Any other character is copied. *)
Fixpoint strftime (fmt : string) (dt : datetime) : string :=
  match fmt with
  | "" => ""
  | String "%" (String c r) =>
    (if Ascii.eqb c "Y" then pretty (year dt)
     else if Ascii.eqb c "m" then pad2 (month dt)
     else if Ascii.eqb c "d" then pad2 (day dt)
     else if Ascii.eqb c "H" then pad2 (hour dt)
     else if Ascii.eqb c "M" then pad2 (minute dt)
     else if Ascii.eqb c "S" then pad2 (second dt)
     else if Ascii.eqb c "%" then "%"
     else String "%" (String c ""))
    +:+ strftime r dt
  | String c r => String c (strftime r dt)
  end.

(** ** [datetime.strptime]

    CPython turns the format into a regular expression (each directive a
    group of ordered alternatives, each run of white space [\s+], every
    other character itself), matches it at the start of the text with
    backtracking, rejects left-over text and hands the numbers to the
    [datetime] constructor.  A matcher here returns every way to match, in
    the order the backtracking engine tries them: the head of the list is
    the match [re] reports.  The formats of the program have no letter
    and no character above U+007F outside their directives. *)
Definition matcher (A : Type) : Type := string -> list (A * string).

(** An ASCII digit whose value lies in [lo..hi]: a class [[lo-hi]]. *)
Definition one (lo hi : N) : matcher N := fun s =>
  match s with
  | String c r =>
    match digit_value c with
    | Some v => if (lo <=? v) && (v <=? hi) then [(v, r)] else []
    | None => []
    end
  | "" => []
  end.

(** [\d]: one decimal digit of any script. *)
Definition any_digit : matcher N := fun s =>
  match utf8_next s with
  | Some (cp, r) =>
    match decimal_value cp with
    | Some v => [(v, r)]
    | None => []
    end
  | None => []
  end.

(** Two ASCII digits, each in its own range. *)
Definition two (lo1 hi1 lo2 hi2 : N) : matcher N := fun s =>
  '(a, r) ← one lo1 hi1 s; '(b, r') ← one lo2 hi2 r; [(10 * a + b, r')].

(** An ASCII digit in a range, then [\d]. *)
Definition then_digit (lo hi : N) : matcher N := fun s =>
  '(a, r) ← one lo hi s; '(b, r') ← any_digit r; [(10 * a + b, r')].

(** [(?P<Y>\d\d\d\d)] *)
Definition dir_Y : matcher N := fun s =>
  '(a, r1) ← any_digit s; '(b, r2) ← any_digit r1;
  '(c, r3) ← any_digit r2; '(d, r4) ← any_digit r3;
  [(1000 * a + 100 * b + 10 * c + d, r4)].

(** [(?P<m>1[0-2]|0[1-9]|[1-9])] *)
Definition dir_m : matcher N := fun s =>
  two 1 1 0 2 s ++ two 0 0 1 9 s ++ one 1 9 s.

(** [(?P<d>3[0-1]|[1-2]\d|0[1-9]|[1-9]| [1-9])] *)
Definition dir_d : matcher N := fun s =>
  two 3 3 0 1 s ++ then_digit 1 2 s ++ two 0 0 1 9 s ++ one 1 9 s
  ++ match s with
     | String " " r => one 1 9 r
     | _ => []
     end.

(** [(?P<H>2[0-3]|[0-1]\d|\d)] *)
Definition dir_H : matcher N := fun s =>
  two 2 2 0 3 s ++ then_digit 0 1 s ++ any_digit s.

(** [(?P<M>[0-5]\d|\d)] *)
Definition dir_M : matcher N := fun s =>
  then_digit 0 5 s ++ any_digit s.

(** [(?P<S>6[0-1]|[0-5]\d|\d)] *)
Definition dir_S : matcher N := fun s =>
  two 6 6 0 1 s ++ then_digit 0 5 s ++ any_digit s.

(** The text after one white-space character. *)
Definition space_next (s : string) : option string :=
  match utf8_next s with
  | Some (cp, r) => if is_whitespace cp then Some r else None
  | None => None
  end.

(** [\s*], greedy: the longest run first, then one character less, ...;
    [fuel] bounds the length of the run. *)
Fixpoint spaces0 (fuel : nat) (s : string) : list string :=
  match fuel with
  | O => [s]
  | S fuel' =>
    match space_next s with
    | Some r => spaces0 fuel' r ++ [s]
    | None => [s]
    end
  end.

(** [\s+] *)
Definition spaces1 (s : string) : list string :=
  match space_next s with
  | Some r => spaces0 (String.length r) r
  | None => []
  end.

Inductive tok :=
| TDir (c : ascii)
| TSpaces
| TLit (c : ascii).

(** The format as the pieces of its regular expression. *)
Fixpoint tokenize (after_space : bool) (fmt : string) : list tok :=
  match fmt with
  | "" => []
  | String "%" (String c r) =>
    (if Ascii.eqb c "%" then TLit "%" else TDir c) :: tokenize false r
  | String c r =>
    if is_space c
    then (if after_space then tokenize true r else TSpaces :: tokenize true r)
    else TLit c :: tokenize false r
  end.

(** What the groups of a match hold; the defaults are those of
    [_strptime]. *)
Record fields := mk_fields {
  f_year : N; f_month : N; f_day : N; f_hour : N; f_minute : N; f_second : N
}.

Definition default_fields : fields := mk_fields 1900 1 1 0 0 0.

Definition directive (c : ascii) : option (matcher N * (N -> fields -> fields)) :=
  if Ascii.eqb c "Y" then
    Some (dir_Y, fun v f => mk_fields v (f_month f) (f_day f) (f_hour f) (f_minute f) (f_second f))
  else if Ascii.eqb c "m" then
    Some (dir_m, fun v f => mk_fields (f_year f) v (f_day f) (f_hour f) (f_minute f) (f_second f))
  else if Ascii.eqb c "d" then
    Some (dir_d, fun v f => mk_fields (f_year f) (f_month f) v (f_hour f) (f_minute f) (f_second f))
  else if Ascii.eqb c "H" then
    Some (dir_H, fun v f => mk_fields (f_year f) (f_month f) (f_day f) v (f_minute f) (f_second f))
  else if Ascii.eqb c "M" then
    Some (dir_M, fun v f => mk_fields (f_year f) (f_month f) (f_day f) (f_hour f) v (f_second f))
  else if Ascii.eqb c "S" then
    Some (dir_S, fun v f => mk_fields (f_year f) (f_month f) (f_day f) (f_hour f) (f_minute f) v)
  else None.

Definition supported (t : tok) : bool :=
  match t with
  | TDir c => match directive c with Some _ => true | None => false end
  | _ => true
  end.

Fixpoint match_tokens (ts : list tok) (f : fields) (s : string) : list (fields * string) :=
  match ts with
  | [] => [(f, s)]
  | TDir c :: ts' =>
    match directive c with
    | Some (m, set) => '(v, r) ← m s; match_tokens ts' (set v f) r
    | None => []
    end
  | TSpaces :: ts' => r ← spaces1 s; match_tokens ts' f r
  | TLit c :: ts' =>
    match s with
    | String c' r => if Ascii.eqb (lower c) (lower c') then match_tokens ts' f r else []
    | "" => []
    end
  end.

Definition strptime (text fmt : string) : result datetime :=
  let ts := tokenize false fmt in
  if forallb supported ts then
    match match_tokens ts default_fields text with
    | (f, "") :: _ =>
      datetime_new (f_year f) (f_month f) (f_day f) (f_hour f) (f_minute f) (f_second f)
    | _ => Raise ValueError
    end
  else Raise ValueError.

(** ** [re.search] for the pattern of line 97

    [IMG[-_](\d{8})[-_]] is a sequence of thirteen one-character atoms, so
    a match at a position is a prefix test, and [re.search] reports the
    leftmost position that matches.  A digit may take several bytes. *)
Inductive atom :=
| Lit (c : ascii)
| Sep
| Digit.

(** The text after the character the atom accepts. *)
Definition eat (a : atom) (s : string) : option string :=
  match a with
  | Lit c' =>
    match s with
    | String c r => if Ascii.eqb c' c then Some r else None
    | "" => None
    end
  | Sep =>
    match s with
    | String c r => if Ascii.eqb c "-" || Ascii.eqb c "_" then Some r else None
    | "" => None
    end
  | Digit =>
    match any_digit s with
    | (_, r) :: _ => Some r
    | [] => None
    end
  end.

(** The text after the match, when the atoms match a prefix of [s]. *)
Fixpoint match_atoms (p : list atom) (s : string) : option string :=
  match p with
  | [] => Some s
  | a :: p' =>
    match eat a s with
    | Some r => match_atoms p' r
    | None => None
    end
  end.

(** The part of [s] before its tail [r]. *)
Definition before (s r : string) : string :=
  substring 0 (String.length s - String.length r)%nat s.

(** The text of the leftmost match. *)
Fixpoint re_search (p : list atom) (s : string) : option string :=
  match match_atoms p s with
  | Some r => Some (before s r)
  | None =>
    match s with
    | String _ r => re_search p r
    | "" => None
    end
  end.

Definition pattern : list atom :=
  [Lit "I"; Lit "M"; Lit "G"; Sep;
   Digit; Digit; Digit; Digit; Digit; Digit; Digit; Digit; Sep].

(** [match.group(1)]: the match without [IMG] and the separator before
    the digits, and without the separator after them. *)
Definition group1 (m : string) : string := substring 4 (String.length m - 5)%nat m.

(** ** The program: pure part *)

(** Lines 90-103. *)
Definition _extract_date_from_filename (filename : string) : result (option datetime) :=
  match re_search pattern filename with
  | Some m =>
    let date_str := group1 m in
    rbind (strptime date_str "%Y%m%d") (fun d => Return (Some d))
  | None => Return None
  end.

(** ** Metadata blocks

    What [piexif.load] returns: a [dict] from IFD names (['0th'],
    ['Exif'], ['GPS'], ['Interop'], ['1st']) to [dict]s from tag numbers
    to values, and the thumbnail under its own key. *)
Inductive tagval :=
| Bytes (b : list Byte.byte)
| Int (n : N)
| Tuple (l : list N).

Record exif_data := mk_exif_data {
  ifds : gmap string (gmap N tagval);
  thumbnail : option (list Byte.byte)
}.

(** [piexif.ExifIFD.DateTimeOriginal], [piexif.ExifIFD.DateTimeDigitized]
    and [piexif.ImageIFD.DateTime]. *)
Definition DateTimeOriginal : N := 36867.
Definition DateTimeDigitized : N := 36868.
Definition DateTime : N := 306.

(** [name in exif_dict] *)
Definition has_ifd (name : string) (d : exif_data) : bool :=
  bool_decide (is_Some (ifds d !! name)).

(** [exif_dict[name]] *)
Definition get_ifd (name : string) (d : exif_data) : result (gmap N tagval) :=
  match ifds d !! name with
  | Some i => Return i
  | None => Raise KeyError
  end.

(** [exif_dict[name] = i] *)
Definition set_ifd (name : string) (i : gmap N tagval) (d : exif_data) : exif_data :=
  mk_exif_data (<[name := i]> (ifds d)) (thumbnail d).

(** [tag in ifd] *)
Definition has_tag (tag : N) (i : gmap N tagval) : bool :=
  bool_decide (is_Some (i !! tag)).

(** [ifd[tag]] *)
Definition get_tag (tag : N) (i : gmap N tagval) : result tagval :=
  match i !! tag with
  | Some v => Return v
  | None => Raise KeyError
  end.

(** [exif_dict[name][tag] = v]: the inner [dict] is updated in place. *)
Definition set_tag (name : string) (tag : N) (v : tagval) (d : exif_data) : result exif_data :=
  rbind (get_ifd name d) (fun i => Return (set_ifd name (<[tag := v]> i) d)).

(** The field [tag] of the IFD [name], when the block has it. *)
Definition field (name : string) (tag : N) (d : exif_data) : option tagval :=
  ifds d !! name ≫= (.!! tag).

(** [v.decode('utf-8')]: only [bytes] has the method. *)
Definition decode (v : tagval) : result string :=
  match v with
  | Bytes b => decode_utf8 b
  | _ => Raise AttributeError
  end.

(** ** Paths, the file system and the console *)

(** A [Path] is the list of its components. *)
Definition path_name (p : list string) : string := List.last p "".
Definition path_join (p : list string) (name : string) : list string := p ++ [name].

(** The directories [mkdir(parents=True)] makes sure exist. *)
Fixpoint with_parents (p : list string) : list (list string) :=
  match p with
  | [] => []
  | c :: r => [c] :: map (cons c) (with_parents r)
  end.

Record fsys := mk_fsys {
  files : gmap (list string) (list Byte.byte);
  dirs : gset (list string)
}.

(** One [print] call.  A format string is kept as its arguments. *)
Inductive line :=
| Text (s : string)
| Found (n : nat)                                (* line 87 *)
| Processing (name : string)                     (* line 38 *)
| NoDateInName (name : string)                   (* line 44 *)
| DateFromFilename (s : string)                  (* line 49 *)
| DateFromExif (s : string)                      (* line 54 *)
| NoExifSection (name : string)                  (* line 112 *)
| NoDateFields (name : string)                   (* line 122 *)
| ErrorReading (p : list string) (e : exn)       (* line 125 *)
| ErrorUpdating (p : list string) (e : exn)      (* line 156 *)
| Complete (dir : list string).                  (* line 80 *)

(** ** The monad of the program

    A computation starts from a file system and gives a value or an
    exception, the file system it leaves and the lines it printed. *)
Definition M (A : Type) : Type := fsys -> result A * fsys * list line.

Definition ret {A} (a : A) : M A := fun s => (Return a, s, []).

Definition bind {A B} (m : M A) (k : A -> M B) : M B := fun s =>
  match m s with
  | (Return a, s', o) => let '(r, s'', o') := k a s' in (r, s'', o ++ o')
  | (Raise e, s', o) => (Raise e, s', o)
  end.

Definition lift {A} (r : result A) : M A := fun s => (r, s, []).

Definition print (l : line) : M unit := fun s => (Return tt, s, [l]).

(** [try: m  except Exception as e: h e] *)
Definition try_except {A} (m : M A) (h : exn -> M A) : M A := fun s =>
  match m s with
  | (Raise e, s', o) => let '(r, s'', o') := h e s' in (r, s'', o ++ o')
  | ok => ok
  end.

Declare Scope M_scope.
Delimit Scope M_scope with M.
Notation "'let*' x ':=' m 'in' k" := (bind m (fun x => k))
  (at level 10, x pattern, m at level 100, k at level 200) : M_scope.
Notation "m '>>' k" := (bind m (fun _ => k))
  (at level 90, right associativity) : M_scope.

(** [for x in l: s = body x s] *)
Fixpoint for_each {A S} (l : list A) (body : A -> S -> M S) (s : S) : M S :=
  match l with
  | [] => ret s
  | x :: r => bind (body x s) (for_each r body)
  end.

(** [open(p, 'rb').read()]: the bytes of a file; a directory and a
    path with nothing at it raise, each its own exception. *)
Definition read_file (s : fsys) (p : list string) : result (list Byte.byte) :=
  match files s !! p with
  | Some data => Return data
  | None => if decide (p ∈ dirs s) then Raise IsADirectoryError else Raise FileNotFoundError
  end.

(** [shutil.copy2(src, dst)] *)
Definition copy2 (src dst : list string) : M unit := fun s =>
  match read_file s src with
  | Return data => (Return tt, mk_fsys (<[dst := data]> (files s)) (dirs s), [])
  | Raise e => (Raise e, s, [])
  end.

(** [p.mkdir(parents=True, exist_ok=True)] *)
Definition mkdir (p : list string) : M unit := fun s =>
  (Return tt, mk_fsys (files s) (dirs s ∪ list_to_set (with_parents p)), []).

(** ** The report (lines 9-23) *)

Record UpdateReport := mk_report {
  updated : N; added : N; failed : N; preserved : N
}.

Definition new_report : UpdateReport := mk_report 0 0 0 0.

Definition newline : string := String (ascii_of_N 10) "".

Definition as_text (r : UpdateReport) : string :=
  "Updated: " +:+ pretty (updated r) +:+ newline +:+
  "Added: " +:+ pretty (added r) +:+ newline +:+
  "Failed: " +:+ pretty (failed r) +:+ newline +:+
  "Preserved: " +:+ pretty (preserved r) +:+ newline.

Definition incr_updated (r : UpdateReport) : UpdateReport :=
  mk_report (updated r + 1) (added r) (failed r) (preserved r).
Definition incr_added (r : UpdateReport) : UpdateReport :=
  mk_report (updated r) (added r + 1) (failed r) (preserved r).
Definition incr_failed (r : UpdateReport) : UpdateReport :=
  mk_report (updated r) (added r) (failed r + 1) (preserved r).
Definition incr_preserved (r : UpdateReport) : UpdateReport :=
  mk_report (updated r) (added r) (failed r) (preserved r + 1).

Definition total (r : UpdateReport) : N :=
  updated r + added r + failed r + preserved r.

(** ** The program: metadata blocks *)

(** Lines 134-146: the three date fields of the loaded block. *)
Definition set_date_fields (exif_dict : exif_data) (new_date : datetime) : result exif_data :=
  let exif_dict := if negb (has_ifd "Exif" exif_dict) then set_ifd "Exif" ∅ exif_dict else exif_dict in
  let exif_dict := if negb (has_ifd "0th" exif_dict) then set_ifd "0th" ∅ exif_dict else exif_dict in
  let date_str := strftime "%Y:%m:%d 09:00:00" new_date in
  rbind (set_tag "Exif" DateTimeOriginal (Bytes (encode_utf8 date_str)) exif_dict) (fun exif_dict =>
  rbind (set_tag "0th" DateTime (Bytes (encode_utf8 date_str)) exif_dict) (fun exif_dict =>
  set_tag "Exif" DateTimeDigitized (Bytes (encode_utf8 date_str)) exif_dict)).

Definition exif_format : string := "%Y:%m:%d %H:%M:%S".

(** Lines 110-122, and the [return None] of line 126 they fall to. *)
Definition read_date_fields (name : string) (exif_dict : exif_data) : M (option datetime) :=
  (if negb (has_ifd "Exif" exif_dict) then
     print (NoExifSection name) >> ret None
   else
     let* exif := lift (get_ifd "Exif" exif_dict) in
     if has_tag DateTimeOriginal exif then
       let* v := lift (get_tag DateTimeOriginal exif) in
       let* date_str := lift (decode v) in
       let* dt := lift (strptime date_str exif_format) in
       ret (Some dt)
     else if has_ifd "0th" exif_dict
             && match get_ifd "0th" exif_dict with
                | Return zeroth => has_tag DateTime zeroth
                | Raise _ => false
                end then
       let* zeroth := lift (get_ifd "0th" exif_dict) in
       let* v := lift (get_tag DateTime zeroth) in
       let* date_str := lift (decode v) in
       let* dt := lift (strptime date_str exif_format) in
       ret (Some dt)
     else
       print (NoDateFields name) >> ret None)%M.

(** ** The actions of the specification

    The four rows of the decision table, and the row a pair of dates
    selects, as the specification words it. *)
Inductive action := Preserve | Add | Overwrite | Unparseable.

Definition reconcile (filenameDate embeddedDate : option datetime) : action :=
  match filenameDate, embeddedDate with
  | None, _ => Unparseable
  | Some _, None => Add
  | Some f, Some e =>
    if date_eqb (date_part f) (date_part e) then Preserve else Overwrite
  end.

(** The date the specification asks [extractEmbeddedDate] for: the
    date-time original field when present, else the generic date-time
    field, none when the value does not parse. *)
Definition parse_field (v : tagval) : option datetime :=
  match rbind (decode v) (fun s => strptime s exif_format) with
  | Return dt => Some dt
  | Raise _ => None
  end.

Definition embedded_date (d : exif_data) : option datetime :=
  match field "Exif" DateTimeOriginal d with
  | Some v => parse_field v
  | None =>
    match field "0th" DateTime d with
    | Some v => parse_field v
    | None => None
    end
  end.



(** ** The program: files *)

Section Program.

(** The codec: [piexif.load] on the bytes of a file, [piexif.dump], and
    [piexif.insert] on the EXIF bytes and the bytes of the image. *)
Variable piexif_load : list Byte.byte -> result exif_data.
Variable piexif_dump : exif_data -> result (list Byte.byte).
Variable piexif_insert : list Byte.byte -> list Byte.byte -> result (list Byte.byte).

(** [Path.glob]: the files of a directory that match a pattern, in the
    order the system lists them. *)
Variable glob : fsys -> list string -> string -> list (list string).

(** [PROJECT_DIR] of [__init__.py], fixed by where the package lies. *)
Variable PROJECT_DIR : list string.

Definition INPUT_DIR : list string := path_join PROJECT_DIR "input".
Definition OUTPUT_DIR : list string := path_join PROJECT_DIR "output".

(** [piexif.load(str(p))] *)
Definition load (p : list string) : M exif_data := fun s =>
  (rbind (read_file s p) piexif_load, s, []).

(** [piexif.insert(exif_bytes, str(image), str(new_file))] *)
Definition insert_exif (exif_bytes : list Byte.byte) (image new_file : list string) : M unit := fun s =>
  match rbind (read_file s image) (piexif_insert exif_bytes) with
  | Return new_data => (Return tt, mk_fsys (<[new_file := new_data]> (files s)) (dirs s), [])
  | Raise e => (Raise e, s, [])
  end.

(** Lines 84-88. *)
Definition _read_files : M (list (list string)) := fun s =>
  let files := glob s INPUT_DIR "*.jpg" ++ glob s INPUT_DIR "*.JPG"
               ++ glob s INPUT_DIR "*.jpeg" ++ glob s INPUT_DIR "*.JPEG" in
  (print (Found (length files)) >> ret files)%M s.

(** Lines 105-126. *)
Definition _get_exif_date (image_path : list string) : M (option datetime) :=
  try_except
    (let* exif_dict := load image_path in
     read_date_fields (path_name image_path) exif_dict)%M
    (fun e => print (ErrorReading image_path e) >> ret None)%M.

(** Lines 128-157. *)
Definition _update_exif_date (image_path : list string) (new_date : datetime)
    (output_path : list string) : M bool :=
  try_except
    (let* exif_dict := load image_path in
     let* exif_dict := lift (set_date_fields exif_dict new_date) in
     let* exif_bytes := lift (piexif_dump exif_dict) in
     insert_exif exif_bytes image_path output_path >>
     ret true)%M
    (fun e => print (ErrorUpdating image_path e) >> ret false)%M.

(** Lines 38-78: the body of the loop of [main], for one file. *)
Definition process_image (output_subdir : list string) (image_path : list string)
    (report : UpdateReport) : M UpdateReport :=
  (print (Processing (path_name image_path)) >>
   let output_path := path_join output_subdir (path_name image_path) in
   let* filename_date := lift (_extract_date_from_filename (path_name image_path)) in
   match filename_date with
   | None =>
     print (NoDateInName (path_name image_path)) >>
     copy2 image_path output_path >>
     ret report
   | Some filename_date =>
     print (DateFromFilename (strftime "%Y-%m-%d" filename_date)) >>
     let* exif_date := _get_exif_date image_path in
     match exif_date with
     | Some exif_date =>
       print (DateFromExif (strftime "%Y-%m-%d %H:%M:%S" exif_date)) >>
       if date_eqb (date_part filename_date) (date_part exif_date) then
         print (Text "  Dates match - copying file without changes") >>
         copy2 image_path output_path >>
         ret (incr_preserved report)
       else
         print (Text "  Dates don't match - updating EXIF data") >>
         let* ok := _update_exif_date image_path filename_date output_path in
         if ok then
           print (Text "  Successfully updated EXIF date") >>
           ret (incr_updated report)
         else
           print (Text "  Failed to update EXIF date - copying original") >>
           copy2 image_path output_path >>
           ret (incr_failed report)
     | None =>
       print (Text "  No EXIF date found - adding date from filename") >>
       let* ok := _update_exif_date image_path filename_date output_path in
       if ok then
         print (Text "  Successfully added EXIF date") >>
         ret (incr_added report)
       else
         print (Text "  Failed to add EXIF date - copying original") >>
         copy2 image_path output_path >>
         ret (incr_failed report)
     end
   end)%M.

(** Lines 25-82; [now] is what [datetime.now()] returns. *)
Definition main (now : datetime) : M unit :=
  (let* jpg_files := _read_files in
   match jpg_files with
   | [] => print (Text "No .jpg files found in input directory")
   | _ =>
     let output_subdir := path_join OUTPUT_DIR (strftime "%Y%m%d_%H%M%S" now) in
     mkdir output_subdir >>
     let* report := for_each jpg_files (process_image output_subdir) new_report in
     print (Complete output_subdir) >>
     print (Text "Update Report:") >>
     print (Text (as_text report))
   end)%M.

(** What [_get_exif_date] returns for a file, in closed form. *)
Definition exif_date_of (s : fsys) (image_path : list string) : option datetime :=
  match files s !! image_path with
  | Some data =>
    match piexif_load data with
    | Return d => if has_ifd "Exif" d then embedded_date d else None
    | Raise _ => None
    end
  | None => None
  end.

(** The bytes [_update_exif_date] writes to the output, in closed form. *)
Definition updated_bytes (s : fsys) (image_path : list string) (new_date : datetime)
  : result (list Byte.byte) :=
  rbind (read_file s image_path) (fun data =>
  rbind (piexif_load data) (fun d =>
  rbind (set_date_fields d new_date) (fun d' =>
  rbind (piexif_dump d') (fun exif_bytes =>
  piexif_insert exif_bytes data)))).

End Program.

(** ** A small codec to run the program on

    A file is an image when it starts with the byte 0xff; what follows
    is the text of its three date fields, if any.  Used only to evaluate
    the program on concrete inputs. *)
Module Toy.

Definition block (text : list Byte.byte) : exif_data :=
  mk_exif_data
    {[ "0th" := {[ DateTime := Bytes text ]};
       "Exif" := {[ DateTimeOriginal := Bytes text; DateTimeDigitized := Bytes text ]} ]}
    None.

Definition empty_block : exif_data :=
  mk_exif_data {[ "0th" := ∅; "Exif" := ∅ ]} None.

Definition load (data : list Byte.byte) : result exif_data :=
  match data with
  | Byte.xff :: [] => Return empty_block
  | Byte.xff :: text => Return (block text)
  | _ => Raise (CodecError 1)
  end.

(** A second reader, for cameras that fill the top-level date only. *)
Definition top_block (text : list Byte.byte) : exif_data :=
  mk_exif_data {[ "0th" := {[ DateTime := Bytes text ]}; "Exif" := ∅ ]} None.

Definition load_top (data : list Byte.byte) : result exif_data :=
  match data with
  | Byte.xff :: text => Return (top_block text)
  | _ => Raise (CodecError 1)
  end.

Definition dump (d : exif_data) : result (list Byte.byte) :=
  match field "Exif" DateTimeOriginal d with
  | Some (Bytes text) => Return text
  | _ => Raise (CodecError 2)
  end.

Definition insert (exif_bytes data : list Byte.byte) : result (list Byte.byte) :=
  match data with
  | Byte.xff :: _ => Return (Byte.xff :: exif_bytes)
  | _ => Raise (CodecError 3)
  end.

(** No directory listing: the files to process are given. *)
Definition glob (listing : list (list string)) (s : fsys) (dir : list string) (pat : string)
  : list (list string) :=
  if String.eqb pat "*.jpg" then listing else [].

Definition image (text : string) : list Byte.byte := Byte.xff :: encode_utf8 text.

Definition fs (l : list (list string * list Byte.byte)) : fsys :=
  mk_fsys (list_to_map l) ∅.

Definition process_image := process_image load dump insert.
Definition main (listing : list (list string)) := main load dump insert (glob listing) ["project"].

(** The inputs of the examples. *)
Definition photo : list string := ["in"; "IMG-20201107-WA0029.jpg"].
Definition other : list string := ["in"; "random_photo.jpg"].
Definition copy : list string := ["out"; "IMG-20201107-WA0029.jpg"].
Definition day : datetime := mk_datetime 2020 11 7 0 0 0.

(** A disk with the photo, its date fields holding [text]. *)
Definition disk (text : string) : fsys := fs [(photo, image text); (other, image "")].

(** A disk on which the photo is no image. *)
Definition broken_disk : fsys := fs [(photo, [Byte.x00]); (other, image "")].

(** A disk with a file named after month 13, listed before the photo. *)
Definition smarch : list string := ["in"; "IMG-20201307-WA0029.jpg"].
Definition smarch_disk : fsys := fs [(smarch, image ""); (photo, image "")].

(** A block with no section at all, and another day. *)
Definition bare_block : exif_data := mk_exif_data ∅ None.
Definition new_year : datetime := mk_datetime 2021 1 1 0 0 0.

(** A photo named after a day of the year 820, and a disk with it. *)
Definition old_photo : list string := ["in"; "IMG-08200107-x.jpg"].
Definition old_day : datetime := mk_datetime 820 1 7 0 0 0.
Definition old_disk (text : string) : fsys := fs [(old_photo, image text)].

(** A disk where a directory is listed among the photos. *)
Definition album : list string := ["in"; "IMG-20190101-album.jpg"].
Definition album_disk : fsys := mk_fsys (list_to_map [(photo, image "")]) {[ album ]}.

(** A block with a field that is no date. *)
Definition camera_block : exif_data :=
  mk_exif_data {[ "0th" := {[ 271 := Bytes (encode_utf8 "Canon") ]}; "Exif" := ∅ ]} None.

End Toy.

(** The file system after [data] is written to [p]. *)
Definition write (p : list string) (data : list Byte.byte) (s : fsys) : fsys :=
  mk_fsys (<[p := data]> (files s)) (dirs s).

(** The line with which the loop body announces each action. *)
Definition announced (a : action) (name : string) : line :=
  match a with
  | Unparseable => NoDateInName name
  | Preserve => Text "  Dates match - copying file without changes"
  | Overwrite => Text "  Dates don't match - updating EXIF data"
  | Add => Text "  No EXIF date found - adding date from filename"
  end.

(** A file whose name yields a date. *)
Definition dated (image_path : list string) : bool :=
  match _extract_date_from_filename (path_name image_path) with
  | Return (Some _) => true
  | _ => false
  end.

(** The three fields [applyDate] writes. *)
Definition is_date_field (name : string) (tag : N) : bool :=
  (String.eqb name "Exif" && ((tag =? DateTimeOriginal) || (tag =? DateTimeDigitized)))
  || (String.eqb name "0th" && (tag =? DateTime)).

(** What [_read_files] lists on a file system, and the directory a run
    that starts at [now] writes to (line 33). *)
Definition listing (glob : fsys -> list string -> string -> list (list string))
    (PROJECT_DIR : list string) (s : fsys) : list (list string) :=
  glob s (INPUT_DIR PROJECT_DIR) "*.jpg" ++ glob s (INPUT_DIR PROJECT_DIR) "*.JPG"
  ++ glob s (INPUT_DIR PROJECT_DIR) "*.jpeg" ++ glob s (INPUT_DIR PROJECT_DIR) "*.JPEG".

Definition output_subdir_at (PROJECT_DIR : list string) (now : datetime) : list string :=
  path_join (OUTPUT_DIR PROJECT_DIR) (strftime "%Y%m%d_%H%M%S" now).

(** A file the loop body can handle: it is there and its name does not
    make [strptime] raise. *)
Definition processable (s : fsys) (image_path : list string) : Prop :=
  raises (_extract_date_from_filename (path_name image_path)) = false
  ∧ is_Some (files s !! image_path).

(** The text of one decimal digit, of whatever script. *)
Definition digit_text (t : string) : Prop :=
  ∃ cp v, utf8_next t = Some (cp, "") ∧ decimal_value cp = Some v.

(** A text of the form the pattern of line 97 matches: [IMG], a
    separator, eight digits, a separator. *)
Definition stamped (m : string) : Prop :=
  ∃ c1 t1 t2 t3 t4 t5 t6 t7 t8 c2,
    m = "IMG" +:+ String c1 (t1 +:+ t2 +:+ t3 +:+ t4 +:+ t5 +:+ t6 +:+ t7 +:+ t8 +:+ String c2 "")
    ∧ (c1 = "-"%char ∨ c1 = "_"%char) ∧ (c2 = "-"%char ∨ c2 = "_"%char)
    ∧ digit_text t1 ∧ digit_text t2 ∧ digit_text t3 ∧ digit_text t4
    ∧ digit_text t5 ∧ digit_text t6 ∧ digit_text t7 ∧ digit_text t8.

(** The character [c] does not occur in [s]. *)
Fixpoint free_of (c : ascii) (s : string) : bool :=
  match s with
  | "" => true
  | String c' r => negb (Ascii.eqb c' c) && free_of c r
  end.

(** The result of a read, with the one line that explains it. *)
Ltac explain :=
  do 2 eexists; split; [reflexivity|];
  first [reflexivity | left; reflexivity | right; left; reflexivity
        | right; right; eexists; reflexivity].

(** A printed line is found by going along the output. *)
Ltac find_line :=
  simpl; rewrite ?in_app_iff; simpl;
  repeat first [left; reflexivity | right].

(** * Properties *)

(** ** Sanity checks of the library models *)

Example extract_whatsapp_name :
  _extract_date_from_filename "IMG-20201107-WA0029.jpg" = Return (Some (mk_datetime 2020 11 7 0 0 0)).
Proof. vm_compute. reflexivity. Qed.

Example extract_underscore_name :
  _extract_date_from_filename "IMG_20201107_WA0030.jpg" = Return (Some (mk_datetime 2020 11 7 0 0 0)).
Proof. vm_compute. reflexivity. Qed.

Example extract_no_pattern : _extract_date_from_filename "random_photo.jpg" = Return None.
Proof. vm_compute. reflexivity. Qed.

Example extract_first_match_only :
  _extract_date_from_filename "IMG-20201107-IMG-20191231-1.jpg"
  = Return (Some (mk_datetime 2020 11 7 0 0 0)).
Proof. vm_compute. reflexivity. Qed.

Example extract_seven_digits : _extract_date_from_filename "IMG-2020117-WA0029.jpg" = Return None.
Proof. vm_compute. reflexivity. Qed.

Example extract_lower_case : _extract_date_from_filename "img-20201107-WA0029.jpg" = Return None.
Proof. vm_compute. reflexivity. Qed.

Example strptime_exif_text :
  strptime "2020:11:07 14:22:01" exif_format = Return (mk_datetime 2020 11 7 14 22 1).
Proof. vm_compute. reflexivity. Qed.

Example strptime_lenient_text :
  strptime "2020:1:7  9:2:1" exif_format = Return (mk_datetime 2020 1 7 9 2 1).
Proof. vm_compute. reflexivity. Qed.

Example strptime_leap_second : strptime "2020:11:07 14:22:60" exif_format = Raise ValueError.
Proof. vm_compute. reflexivity. Qed.

Example strptime_february : strptime "20230229" "%Y%m%d" = Raise ValueError.
Proof. vm_compute. reflexivity. Qed.

Example strftime_year_not_filled :
  strftime "%Y:%m:%d 09:00:00" (mk_datetime 820 1 7 9 2 1) = "820:01:07 09:00:00".
Proof. vm_compute. reflexivity. Qed.

Example strptime_three_digit_year : strptime "820:01:07 09:00:00" exif_format = Raise ValueError.
Proof. vm_compute. reflexivity. Qed.

(** Digits of other scripts: the year and the second digit of a day, an
    hour, a minute or a second may be any decimal digit, the month may
    not. *)
Example strptime_full_width_year :
  strptime "２０２０:11:07 14:22:01" exif_format = Return (mk_datetime 2020 11 7 14 22 1).
Proof. vm_compute. reflexivity. Qed.

Example strptime_arabic_indic_month : strptime "2020:1٢:07 14:22:01" exif_format = Raise ValueError.
Proof. vm_compute. reflexivity. Qed.

Example strptime_em_space :
  strptime "2020:11:07 14:22:01" exif_format = Return (mk_datetime 2020 11 7 14 22 1).
Proof. vm_compute. reflexivity. Qed.

Example extract_arabic_indic_name :
  _extract_date_from_filename "IMG-٢٠٢٠١١٠٧-WA0029.jpg" = Raise ValueError.
Proof. vm_compute. reflexivity. Qed.

Example extract_arabic_indic_year :
  _extract_date_from_filename "IMG-٢٠٢٠1107-WA0029.jpg" = Return (Some (mk_datetime 2020 11 7 0 0 0)).
Proof. vm_compute. reflexivity. Qed.

Example decode_overlong : decode_utf8 [Byte.xc0; Byte.x80] = Raise UnicodeDecodeError.
Proof. vm_compute. reflexivity. Qed.

Example decode_surrogate : decode_utf8 [Byte.xed; Byte.xa0; Byte.x80] = Raise UnicodeDecodeError.
Proof. vm_compute. reflexivity. Qed.

(** ** Text and dates *)

Lemma code_dec_digit n : code (dec_digit n) = 48 + n mod 10.
Proof.
  unfold code, dec_digit. apply N_ascii_embedding.
  pose proof (N.mod_upper_bound n 10 ltac:(discriminate)). lia.
Qed.

Lemma digit_cases n : n < 10 -> n = 0 ∨ n = 1 ∨ n = 2 ∨ n = 3 ∨ n = 4 ∨ n = 5 ∨ n = 6 ∨ n = 7 ∨ n = 8 ∨ n = 9.
Proof. lia. Qed.

Lemma dec_digit_ascii n : (code (dec_digit n) <? 128) = true.
Proof.
  rewrite code_dec_digit. apply N.ltb_lt.
  pose proof (N.mod_upper_bound n 10 ltac:(discriminate)). lia.
Qed.

(** An ASCII character is one byte. *)
Lemma utf8_next_ascii c r : (code c <? 128) = true -> utf8_next (String c r) = Some (code c, r).
Proof. intros H. unfold utf8_next. rewrite H. reflexivity. Qed.

Lemma decimal_value_ascii k : k < 10 -> decimal_value (48 + k) = Some k.
Proof.
  intros H.
  destruct (digit_cases k H) as [-> | [-> | [-> | [-> | [-> | [-> | [-> | [-> | [-> | ->]]]]]]]]];
    reflexivity.
Qed.

(** [\d] reads an ASCII digit. *)
Lemma any_digit_dec_digit n r : any_digit (String (dec_digit n) r) = [(n mod 10, r)].
Proof.
  unfold any_digit. rewrite utf8_next_ascii by apply dec_digit_ascii.
  rewrite code_dec_digit, decimal_value_ascii; [reflexivity|].
  apply N.mod_upper_bound. discriminate.
Qed.

Lemma year_digits y :
  y < 10000 ->
  1000 * ((y / 1000) mod 10) + 100 * ((y / 100) mod 10) + 10 * ((y / 10) mod 10) + y mod 10 = y.
Proof.
  intros Hy.
  change 1000 with (10 * 10 * 10) at 2. change 100 with (10 * 10) at 2.
  rewrite <- !N.Div0.div_div.
  pose proof (N.div_mod y 10 ltac:(discriminate)) as E0.
  pose proof (N.mod_upper_bound y 10 ltac:(discriminate)) as B0.
  generalize dependent (y mod 10). generalize dependent (y / 10). intros q1 r0 E0 B0.
  pose proof (N.div_mod q1 10 ltac:(discriminate)) as E1.
  pose proof (N.mod_upper_bound q1 10 ltac:(discriminate)) as B1.
  generalize dependent (q1 mod 10). generalize dependent (q1 / 10). intros q2 r1 E1 B1.
  pose proof (N.div_mod q2 10 ltac:(discriminate)) as E2.
  pose proof (N.mod_upper_bound q2 10 ltac:(discriminate)) as B2.
  generalize dependent (q2 mod 10). generalize dependent (q2 / 10). intros q3 r2 E2 B2.
  assert (q3 < 10) by lia.
  rewrite (N.mod_small q3 10) by assumption. lia.
Qed.

Lemma append_cons c s r : String c s +:+ r = String c (s +:+ r).
Proof. reflexivity. Qed.

Lemma append_nil r : "" +:+ r = r.
Proof. reflexivity. Qed.

Lemma mbind_one {A B} (f : A -> list B) (x : A) : mbind f [x] = f x.
Proof. simpl. apply app_nil_r. Qed.

(** [%Y] reads four ASCII digits as the year they spell. *)
Lemma dir_Y_pad4 y r : y < 10000 -> dir_Y (pad4 y +:+ r) = [(y, r)].
Proof.
  intros Hy. unfold dir_Y, pad4. rewrite !append_cons, append_nil.
  do 4 (rewrite any_digit_dec_digit, mbind_one; cbv beta iota).
  rewrite year_digits by assumption. reflexivity.
Qed.

Lemma days_in_month_le y m : days_in_month y m <= 31.
Proof.
  unfold days_in_month.
  repeat match goal with |- context [if ?b then _ else _] => destruct b end; lia.
Qed.

Lemma valid_date_bounds y m d :
  valid_date y m d = true ->
  1 <= y < 10000 ∧ (m = 1 ∨ m = 2 ∨ m = 3 ∨ m = 4 ∨ m = 5 ∨ m = 6 ∨ m = 7 ∨ m = 8 ∨ m = 9 ∨ m = 10 ∨ m = 11 ∨ m = 12) ∧ (d = 1 ∨ d = 2 ∨ d = 3 ∨ d = 4 ∨ d = 5 ∨ d = 6 ∨ d = 7 ∨ d = 8 ∨ d = 9 ∨ d = 10 ∨ d = 11 ∨ d = 12 ∨ d = 13 ∨ d = 14 ∨ d = 15 ∨ d = 16 ∨ d = 17 ∨ d = 18 ∨ d = 19 ∨ d = 20 ∨ d = 21 ∨ d = 22 ∨ d = 23 ∨ d = 24 ∨ d = 25 ∨ d = 26 ∨ d = 27 ∨ d = 28 ∨ d = 29 ∨ d = 30 ∨ d = 31).
Proof.
  unfold valid_date. rewrite !andb_true_iff, !N.leb_le.
  pose proof (days_in_month_le y m). intros. lia.
Qed.

(** The format of the fields after the year, as tokens. *)
Lemma tokens_exif_format :
  tokenize false exif_format =
  [TDir "Y"; TLit ":"; TDir "m"; TLit ":"; TDir "d"; TSpaces;
   TDir "H"; TLit ":"; TDir "M"; TLit ":"; TDir "S"].
Proof. reflexivity. Qed.

Lemma match_exif_after_year m d f :
  (m = 1 ∨ m = 2 ∨ m = 3 ∨ m = 4 ∨ m = 5 ∨ m = 6 ∨ m = 7 ∨ m = 8 ∨ m = 9 ∨ m = 10 ∨ m = 11 ∨ m = 12) -> (d = 1 ∨ d = 2 ∨ d = 3 ∨ d = 4 ∨ d = 5 ∨ d = 6 ∨ d = 7 ∨ d = 8 ∨ d = 9 ∨ d = 10 ∨ d = 11 ∨ d = 12 ∨ d = 13 ∨ d = 14 ∨ d = 15 ∨ d = 16 ∨ d = 17 ∨ d = 18 ∨ d = 19 ∨ d = 20 ∨ d = 21 ∨ d = 22 ∨ d = 23 ∨ d = 24 ∨ d = 25 ∨ d = 26 ∨ d = 27 ∨ d = 28 ∨ d = 29 ∨ d = 30 ∨ d = 31) ->
  ∃ rest,
    match_tokens [TLit ":"; TDir "m"; TLit ":"; TDir "d"; TSpaces;
                  TDir "H"; TLit ":"; TDir "M"; TLit ":"; TDir "S"] f
      (":" +:+ pad2 m +:+ ":" +:+ pad2 d +:+ " 09:00:00")
    = (mk_fields (f_year f) m d 9 0 0, "") :: rest.
Proof.
  intros Hm Hd.
  destruct Hm as [-> | [-> | [-> | [-> | [-> | [-> | [-> | [-> | [-> | [-> | [-> | ->]]]]]]]]]]]; destruct Hd as [-> | [-> | [-> | [-> | [-> | [-> | [-> | [-> | [-> | [-> | [-> | [-> | [-> | [-> | [-> | [-> | [-> | [-> | [-> | [-> | [-> | [-> | [-> | [-> | [-> | [-> | [-> | [-> | [-> | [-> | ->]]]]]]]]]]]]]]]]]]]]]]]]]]]]]];
    vm_compute; eexists; reflexivity.
Qed.

Lemma match_date_after_year m d f :
  (m = 1 ∨ m = 2 ∨ m = 3 ∨ m = 4 ∨ m = 5 ∨ m = 6 ∨ m = 7 ∨ m = 8 ∨ m = 9 ∨ m = 10 ∨ m = 11 ∨ m = 12) -> (d = 1 ∨ d = 2 ∨ d = 3 ∨ d = 4 ∨ d = 5 ∨ d = 6 ∨ d = 7 ∨ d = 8 ∨ d = 9 ∨ d = 10 ∨ d = 11 ∨ d = 12 ∨ d = 13 ∨ d = 14 ∨ d = 15 ∨ d = 16 ∨ d = 17 ∨ d = 18 ∨ d = 19 ∨ d = 20 ∨ d = 21 ∨ d = 22 ∨ d = 23 ∨ d = 24 ∨ d = 25 ∨ d = 26 ∨ d = 27 ∨ d = 28 ∨ d = 29 ∨ d = 30 ∨ d = 31) ->
  ∃ rest,
    match_tokens [TDir "m"; TDir "d"] f (pad2 m +:+ pad2 d)
    = (mk_fields (f_year f) m d (f_hour f) (f_minute f) (f_second f), "") :: rest.
Proof.
  intros Hm Hd.
  destruct Hm as [-> | [-> | [-> | [-> | [-> | [-> | [-> | [-> | [-> | [-> | [-> | ->]]]]]]]]]]]; destruct Hd as [-> | [-> | [-> | [-> | [-> | [-> | [-> | [-> | [-> | [-> | [-> | [-> | [-> | [-> | [-> | [-> | [-> | [-> | [-> | [-> | [-> | [-> | [-> | [-> | [-> | [-> | [-> | [-> | [-> | [-> | ->]]]]]]]]]]]]]]]]]]]]]]]]]]]]]];
    vm_compute; eexists; reflexivity.
Qed.

Lemma pretty_char_dec_digit n : pretty_N_char (n mod 10) = dec_digit n.
Proof.
  unfold dec_digit. pose proof (N.mod_upper_bound n 10 ltac:(discriminate)) as H.
  destruct (digit_cases _ H) as [-> | [-> | [-> | [-> | [-> | [-> | [-> | [-> | [-> | ->]]]]]]]]];
    reflexivity.
Qed.

(** A year of four digits is printed as they are. *)
Lemma pretty_pad4 y : 1000 <= y < 10000 -> pretty y = pad4 y.
Proof.
  intros [Hlo Hhi]. unfold pretty, pretty_N. destruct (decide (y = 0)) as [->|_]; [lia|].
  assert (H1 : 0 < y) by lia.
  assert (H2 : 0 < y / 10) by (apply N.div_str_pos; lia).
  assert (H3 : 0 < y / 10 / 10)
    by (rewrite N.Div0.div_div; apply N.div_str_pos; lia).
  assert (H4 : 0 < y / 10 / 10 / 10)
    by (rewrite !N.Div0.div_div; apply N.div_str_pos; lia).
  rewrite (pretty_N_go_step y) by assumption.
  rewrite (pretty_N_go_step (y / 10)) by assumption.
  rewrite (pretty_N_go_step (y / 10 / 10)) by assumption.
  rewrite (pretty_N_go_step (y / 10 / 10 / 10)) by assumption.
  replace (y / 10 / 10 / 10 / 10) with 0
    by (rewrite !N.Div0.div_div; symmetry; apply N.div_small; lia).
  rewrite pretty_N_go_0, !pretty_char_dec_digit, !N.Div0.div_div. reflexivity.
Qed.


(** The text [strftime] prints for a date. *)
Lemma strftime_text dt :
  strftime "%Y:%m:%d 09:00:00" dt
  = pretty (year dt) +:+ ":" +:+ pad2 (month dt) +:+ ":" +:+ pad2 (day dt) +:+ " 09:00:00".
Proof. reflexivity. Qed.


(** With a year of four digits the text is nineteen ASCII characters. *)
Lemma strftime_padded dt :
  1000 <= year dt < 10000 ->
  strftime "%Y:%m:%d 09:00:00" dt
  = pad4 (year dt) +:+ ":" +:+ pad2 (month dt) +:+ ":" +:+ pad2 (day dt) +:+ " 09:00:00".
Proof. intros Hy. rewrite strftime_text, pretty_pad4 by assumption. reflexivity. Qed.

Lemma strftime_padded_ascii dt :
  1000 <= year dt < 10000 -> ascii_text (strftime "%Y:%m:%d 09:00:00" dt) = true.
Proof.
  intros Hy. rewrite strftime_padded by assumption.
  unfold pad4, pad2. rewrite !append_cons, !append_nil.
  cbn [ascii_text]. rewrite !dec_digit_ascii. reflexivity.
Qed.

(** [strptime] reads a timestamp with a year of four digits back as nine
    o'clock of its date. *)
Lemma strptime_padded y m d :
  valid_date y m d = true ->
  strptime (pad4 y +:+ ":" +:+ pad2 m +:+ ":" +:+ pad2 d +:+ " 09:00:00") exif_format
  = Return (mk_datetime y m d 9 0 0).
Proof.
  intros Hv. destruct (valid_date_bounds _ _ _ Hv) as ([_ Hy] & Hm & Hd).
  unfold strptime. rewrite tokens_exif_format.
  change (forallb supported _) with true. cbv iota.
  change (match_tokens (TDir "Y" :: ?ts) ?f ?s)
    with ('(v, r) ← dir_Y s; match_tokens ts (mk_fields v (f_month f) (f_day f) (f_hour f) (f_minute f) (f_second f)) r).
  rewrite dir_Y_pad4 by assumption.
  destruct (match_exif_after_year m d (mk_fields y 1 1 0 0 0) Hm Hd) as [rest Hr].
  rewrite mbind_one. cbv beta iota. cbn [f_month f_day f_hour f_minute f_second default_fields].
  rewrite Hr. simpl.
  unfold datetime_new. rewrite Hv. reflexivity.
Qed.

Lemma strptime_strftime dt :
  valid_date (year dt) (month dt) (day dt) = true -> 1000 <= year dt ->
  strptime (strftime "%Y:%m:%d 09:00:00" dt) exif_format
  = Return (mk_datetime (year dt) (month dt) (day dt) 9 0 0).
Proof.
  intros Hv Hy. destruct (valid_date_bounds _ _ _ Hv) as ([_ Hy'] & _).
  rewrite strftime_padded by lia. apply strptime_padded. assumption.
Qed.

(** A year below 1000 is printed with one, two or three digits. *)
Lemma pretty_short y :
  y < 1000 ->
  (∃ a, pretty y = String (dec_digit a) "")
  ∨ (∃ a b, pretty y = String (dec_digit a) (String (dec_digit b) ""))
  ∨ (∃ a b c, pretty y = String (dec_digit a) (String (dec_digit b) (String (dec_digit c) ""))).
Proof.
  intros Hy. unfold pretty, pretty_N.
  destruct (decide (y = 0)) as [->|Hn]; [left; exists 0; reflexivity|].
  rewrite (pretty_N_go_step y) by lia.
  destruct (N.lt_ge_cases y 10) as [H1|H1].
  { left. exists y. rewrite N.div_small by assumption.
    rewrite pretty_N_go_0, pretty_char_dec_digit. reflexivity. }
  rewrite (pretty_N_go_step (y / 10)) by (apply N.div_str_pos; lia).
  rewrite N.Div0.div_div. change (10 * 10) with 100.
  destruct (N.lt_ge_cases y 100) as [H2|H2].
  { right. left. exists (y / 10), y. rewrite (N.div_small y 100) by assumption.
    rewrite pretty_N_go_0, !pretty_char_dec_digit. reflexivity. }
  right. right. exists (y / 100), (y / 10), y.
  rewrite (pretty_N_go_step (y / 100)) by (apply N.div_str_pos; lia).
  rewrite N.Div0.div_div. change (100 * 10) with 1000.
  rewrite (N.div_small y 1000) by assumption.
  rewrite pretty_N_go_0, !pretty_char_dec_digit. reflexivity.
Qed.

(** [%Y] asks for four digits: a shorter year before the colon is
    refused. *)
Lemma dir_Y_short y r : y < 1000 -> dir_Y (pretty y +:+ String ":" r) = [].
Proof.
  intros Hy. unfold dir_Y.
  destruct (pretty_short y Hy) as [[a ->] | [(a & b & ->) | (a & b & c & ->)]];
    rewrite !append_cons, append_nil;
    repeat (rewrite any_digit_dec_digit, mbind_one; cbv beta iota); reflexivity.
Qed.

Lemma strftime_short_ascii dt :
  year dt < 1000 -> ascii_text (strftime "%Y:%m:%d 09:00:00" dt) = true.
Proof.
  intros Hy. rewrite strftime_text.
  destruct (pretty_short _ Hy) as [[a ->] | [(a & b & ->) | (a & b & c & ->)]];
    unfold pad2; rewrite !append_cons, !append_nil;
    cbn [ascii_text]; rewrite !dec_digit_ascii; reflexivity.
Qed.

(** The text [strftime] prints for a year below 1000 is no date to
    [strptime]. *)
Lemma strptime_strftime_short dt :
  year dt < 1000 ->
  strptime (strftime "%Y:%m:%d 09:00:00" dt) exif_format = Raise ValueError.
Proof.
  intros Hy. rewrite strftime_text.
  unfold strptime. rewrite tokens_exif_format.
  change (forallb supported _) with true. cbv iota.
  change (match_tokens (TDir "Y" :: ?ts) ?f ?s)
    with ('(v, r) ← dir_Y s; match_tokens ts (mk_fields v (f_month f) (f_day f) (f_hour f) (f_minute f) (f_second f)) r).
  change (":" +:+ ?t) with (String ":" t).
  rewrite dir_Y_short by assumption. reflexivity.
Qed.

(** The text [strftime] prints is ASCII, whatever the year. *)
Lemma strftime_ascii dt :
  year dt < 10000 -> ascii_text (strftime "%Y:%m:%d 09:00:00" dt) = true.
Proof.
  intros Hy. destruct (N.lt_ge_cases (year dt) 1000).
  - apply strftime_short_ascii. assumption.
  - apply strftime_padded_ascii. lia.
Qed.

(** What [strptime] makes of the text [strftime] printed for a date. *)
Lemma strptime_strftime_cases dt :
  valid_date (year dt) (month dt) (day dt) = true ->
  strptime (strftime "%Y:%m:%d 09:00:00" dt) exif_format
  = if 1000 <=? year dt then Return (mk_datetime (year dt) (month dt) (day dt) 9 0 0)
    else Raise ValueError.
Proof.
  intros Hv. destruct (N.leb_spec 1000 (year dt)).
  - apply strptime_strftime; assumption.
  - apply strptime_strftime_short. assumption.
Qed.

(** [strptime] with [%Y%m%d] reads eight digits of a date of the calendar. *)
Lemma strptime_date y m d :
  valid_date y m d = true ->
  strptime (pad4 y +:+ pad2 m +:+ pad2 d) "%Y%m%d" = Return (mk_datetime y m d 0 0 0).
Proof.
  intros Hv. destruct (valid_date_bounds _ _ _ Hv) as ([_ Hy] & Hm & Hd).
  unfold strptime.
  change (tokenize false "%Y%m%d") with [TDir "Y"; TDir "m"; TDir "d"].
  change (forallb supported _) with true. cbv iota.
  change (match_tokens (TDir "Y" :: ?ts) ?f ?s)
    with ('(v, r) ← dir_Y s; match_tokens ts (mk_fields v (f_month f) (f_day f) (f_hour f) (f_minute f) (f_second f)) r).
  rewrite dir_Y_pad4 by assumption.
  destruct (match_date_after_year m d (mk_fields y 1 1 0 0 0) Hm Hd) as [rest Hr].
  rewrite mbind_one. cbv beta iota. cbn [f_month f_day f_hour f_minute f_second default_fields].
  rewrite Hr. simpl.
  unfold datetime_new. rewrite Hv. reflexivity.
Qed.

Lemma well_formed_ascii s : ascii_text s = true -> well_formed (String.length s) s = true.
Proof.
  induction s as [|c s IH]; [reflexivity|].
  cbn [ascii_text]. rewrite andb_true_iff. intros [Hc Hs].
  cbn [String.length well_formed]. rewrite utf8_next_ascii by assumption. auto.
Qed.

(** Decoding undoes encoding, here for ASCII text. *)
Lemma decode_encode s : ascii_text s = true -> decode_utf8 (encode_utf8 s) = Return s.
Proof.
  intros H. unfold decode_utf8, encode_utf8.
  rewrite String.string_of_list_byte_of_string, well_formed_ascii by assumption.
  reflexivity.
Qed.

(** ** Metadata blocks *)

Lemma has_ifd_lookup name d :
  has_ifd name d = match ifds d !! name with Some _ => true | None => false end.
Proof. unfold has_ifd. destruct (ifds d !! name); reflexivity. Qed.

Lemma has_tag_lookup tag (i : gmap N tagval) :
  has_tag tag i = match i !! tag with Some _ => true | None => false end.
Proof. unfold has_tag. destruct (i !! tag); reflexivity. Qed.

Lemma set_tag_present name tag v d i :
  ifds d !! name = Some i ->
  set_tag name tag v d = Return (set_ifd name (<[tag := v]> i) d).
Proof. intros H. unfold set_tag, get_ifd. rewrite H. reflexivity. Qed.

Lemma field_set_ifd name i d name' tag :
  field name' tag (set_ifd name i d) =
  if decide (name = name') then i !! tag else field name' tag d.
Proof.
  unfold field, set_ifd. simpl. rewrite lookup_insert.
  destruct (decide (name = name')); reflexivity.
Qed.

(** The block with an IFD made present: no field changes. *)
Lemma field_ensure_ifd name d name' tag :
  field name' tag (if negb (has_ifd name d) then set_ifd name ∅ d else d) = field name' tag d.
Proof.
  rewrite has_ifd_lookup. destruct (ifds d !! name) as [i|] eqn:H; simpl; [reflexivity|].
  rewrite field_set_ifd. destruct (decide (name = name')) as [<-|]; [|reflexivity].
  unfold field. rewrite H. reflexivity.
Qed.

Lemma ensure_ifd_present name d :
  ∃ i, ifds (if negb (has_ifd name d) then set_ifd name ∅ d else d) !! name = Some i.
Proof.
  rewrite has_ifd_lookup. destruct (ifds d !! name) as [i|] eqn:H; simpl; [eauto|].
  rewrite lookup_insert_eq. eauto.
Qed.

Lemma field_set_tag name tag v d d' name' tag' :
  set_tag name tag v d = Return d' ->
  field name' tag' d' =
  if decide (name = name' ∧ tag = tag') then Some v else field name' tag' d.
Proof.
  unfold set_tag, get_ifd. destruct (ifds d !! name) as [i|] eqn:H; [|discriminate].
  simpl. intros [= <-]. rewrite field_set_ifd.
  destruct (decide (name = name')) as [<-|Hn].
  - rewrite lookup_insert. unfold field. rewrite H. simpl.
    destruct (decide (tag = tag')); destruct (decide _) as [[_ ?]|Hno];
      try reflexivity; try contradiction.
    exfalso. apply Hno. split; [reflexivity|assumption].
  - destruct (decide _) as [[? _]|_]; [contradiction|reflexivity].
Qed.

Lemma set_tag_keeps name tag v d d' name' :
  set_tag name tag v d = Return d' -> is_Some (ifds d !! name') ->
  is_Some (ifds d' !! name') ∧ thumbnail d' = thumbnail d.
Proof.
  unfold set_tag, get_ifd. destruct (ifds d !! name) as [i|] eqn:H; [|discriminate].
  simpl. intros [= <-] Hs. simpl. split; [|reflexivity].
  rewrite lookup_insert. destruct (decide (name = name')); eauto.
Qed.

(** Lines 134-146 never raise, and change the three date fields only. *)
Lemma set_date_fields_spec d nd :
  ∃ d', set_date_fields d nd = Return d'
    ∧ thumbnail d' = thumbnail d
    ∧ ∀ name tag,
        field name tag d' =
        if is_date_field name tag
        then Some (Bytes (encode_utf8 (strftime "%Y:%m:%d 09:00:00" nd)))
        else field name tag d.
Proof.
  unfold set_date_fields.
  set (v := Bytes _).
  set (d1 := if negb (has_ifd "Exif" d) then _ else _).
  set (d2 := if negb (has_ifd "0th" d1) then _ else _).
  assert (Hf : ∀ name tag, field name tag d2 = field name tag d).
  { intros. unfold d2, d1. rewrite !field_ensure_ifd. reflexivity. }
  assert (Ht : thumbnail d2 = thumbnail d).
  { unfold d2, d1.
    repeat match goal with |- context [if ?b then _ else _] => destruct b end; reflexivity. }
  destruct (ensure_ifd_present "0th" d1) as [i0 H0]. fold d2 in H0.
  assert (∃ ie, ifds d2 !! "Exif" = Some ie) as [ie HE].
  { destruct (ensure_ifd_present "Exif" d) as [ie HE]. fold d1 in HE.
    unfold d2. rewrite has_ifd_lookup. destruct (ifds d1 !! "0th"); simpl; [eauto|].
    rewrite lookup_insert_ne by discriminate. eauto. }
  destruct (set_tag "Exif" DateTimeOriginal v d2) as [d3|] eqn:H3;
    [|rewrite (set_tag_present _ _ _ _ _ HE) in H3; discriminate].
  destruct (set_tag_keeps _ _ _ _ _ "0th" H3) as [[i0' H0'] Ht3]; [eauto|].
  destruct (set_tag_keeps _ _ _ _ _ "Exif" H3) as [[ie' HE'] _]; [eauto|].
  simpl.
  destruct (set_tag "0th" DateTime v d3) as [d4|] eqn:H4;
    [|rewrite (set_tag_present _ _ _ _ _ H0') in H4; discriminate].
  destruct (set_tag_keeps _ _ _ _ _ "Exif" H4) as [[ie'' HE''] Ht4]; [eauto|].
  simpl.
  destruct (set_tag "Exif" DateTimeDigitized v d4) as [d5|] eqn:H5;
    [|rewrite (set_tag_present _ _ _ _ _ HE'') in H5; discriminate].
  destruct (set_tag_keeps _ _ _ _ _ "Exif" H5) as [_ Ht5]; [eauto|].
  exists d5. split; [reflexivity|]. split; [congruence|].
  intros name tag.
  rewrite (field_set_tag _ _ _ _ _ name tag H5), (field_set_tag _ _ _ _ _ name tag H4),
    (field_set_tag _ _ _ _ _ name tag H3), Hf.
  unfold is_date_field, DateTimeOriginal, DateTimeDigitized, DateTime.
  repeat destruct (decide _); destruct_and?; subst; simpl; try reflexivity.
  all: destruct (String.eqb_spec name "Exif"); destruct (String.eqb_spec name "0th");
    destruct (N.eqb_spec tag 36867); destruct (N.eqb_spec tag 36868);
    destruct (N.eqb_spec tag 306); simpl; try reflexivity; subst; naive_solver.
Qed.

Section Properties.

Variable piexif_load : list Byte.byte -> result exif_data.
Variable piexif_dump : exif_data -> result (list Byte.byte).
Variable piexif_insert : list Byte.byte -> list Byte.byte -> result (list Byte.byte).
Variable glob : fsys -> list string -> string -> list (list string).
Variable PROJECT_DIR : list string.

Abbreviation get_exif_date := (_get_exif_date piexif_load).
Abbreviation update_exif_date := (_update_exif_date piexif_load piexif_dump piexif_insert).
Abbreviation process := (process_image piexif_load piexif_dump piexif_insert).
Abbreviation date_of := (exif_date_of piexif_load).
Abbreviation new_bytes := (updated_bytes piexif_load piexif_dump piexif_insert).

Lemma read_file_present s p data : files s !! p = Some data -> read_file s p = Return data.
Proof. intros H. unfold read_file. rewrite H. reflexivity. Qed.

Lemma get_exif_date_spec p s :
  ∃ o, get_exif_date p s = (Return (date_of s p), s, o).
Proof.
  unfold _get_exif_date, exif_date_of, try_except, bind, load, read_file.
  destruct (files s !! p) as [data|];
    [|destruct (decide (p ∈ dirs s)); eexists; reflexivity].
  cbn [rbind].
  destruct (piexif_load data) as [d|e]; [|eexists; reflexivity].
  unfold read_date_fields, embedded_date, field, parse_field, bind, lift.
  rewrite !has_ifd_lookup. unfold get_ifd.
  destruct (ifds d !! "Exif") as [exif|] eqn:HE; simpl; [|eexists; reflexivity].
  rewrite has_tag_lookup. unfold get_tag.
  destruct (exif !! DateTimeOriginal) as [v|] eqn:HO; simpl.
  - destruct (decode v) as [t|]; simpl; [|eexists; reflexivity].
    destruct (strptime t exif_format); simpl; eexists; reflexivity.
  - destruct (ifds d !! "0th") as [zeroth|] eqn:HZ; simpl; [|eexists; reflexivity].
    rewrite has_tag_lookup.
    destruct (zeroth !! DateTime) as [v|] eqn:HD; simpl; [|eexists; reflexivity].
    destruct (decode v) as [t|]; simpl; [|eexists; reflexivity].
    destruct (strptime t exif_format); simpl; eexists; reflexivity.
Qed.

Lemma update_exif_date_spec p nd out s :
  update_exif_date p nd out s =
  match new_bytes s p nd with
  | Return b => (Return true, write out b s, [])
  | Raise e => (Return false, s, [ErrorUpdating p e])
  end.
Proof.
  unfold _update_exif_date, updated_bytes, try_except, bind, load, lift, insert_exif.
  destruct (read_file s p) as [data|e]; cbn [rbind]; [|reflexivity].
  destruct (piexif_load data) as [d|e]; simpl; [|reflexivity].
  destruct (set_date_fields d nd) as [d'|e]; simpl; [|reflexivity].
  destruct (piexif_dump d') as [eb|e]; simpl; [|reflexivity].
  destruct (piexif_insert eb data) as [nb|e]; simpl; reflexivity.
Qed.

Lemma copy2_present src dst s data :
  files s !! src = Some data -> copy2 src dst s = (Return tt, write dst data s, []).
Proof. intros H. unfold copy2. rewrite (read_file_present _ _ _ H). reflexivity. Qed.

(** ** The loop body *)

(** The loop body, row by row of the decision table. *)
Lemma process_image_spec out p r s fd data :
  _extract_date_from_filename (path_name p) = Return fd ->
  files s !! p = Some data ->
  ∃ r' s' o,
    process out p r s = (Return r', s', o)
    ∧ In (announced (reconcile fd (date_of s p)) (path_name p)) o
    ∧ match reconcile fd (date_of s p), fd with
      | Unparseable, _ => r' = r ∧ s' = write (path_join out (path_name p)) data s
      | Preserve, _ => r' = incr_preserved r ∧ s' = write (path_join out (path_name p)) data s
      | Add, Some d =>
        match new_bytes s p d with
        | Return b => r' = incr_added r ∧ s' = write (path_join out (path_name p)) b s
        | Raise _ => r' = incr_failed r ∧ s' = write (path_join out (path_name p)) data s
        end
      | Overwrite, Some d =>
        match new_bytes s p d with
        | Return b => r' = incr_updated r ∧ s' = write (path_join out (path_name p)) b s
        | Raise _ => r' = incr_failed r ∧ s' = write (path_join out (path_name p)) data s
        end
      | _, None => False
      end.
Proof.
  intros Hfd Hp. unfold process_image, bind, print, lift, ret.
  unfold reconcile.
  rewrite Hfd. destruct fd as [d|]; cbv beta iota.
  2: { rewrite (copy2_present _ _ _ _ Hp).
       do 3 eexists. split; [reflexivity|]. split; [find_line|]. split; reflexivity. }
  destruct (get_exif_date_spec p s) as [o1 ->].
  destruct (date_of s p) as [e|]; cbv beta iota.
  - destruct (date_eqb (date_part d) (date_part e)).
    + rewrite (copy2_present _ _ _ _ Hp).
      do 3 eexists. split; [reflexivity|]. split; [find_line|split; reflexivity].
    + rewrite update_exif_date_spec.
      destruct (new_bytes s p d) as [b|e']; [|rewrite (copy2_present _ _ _ _ Hp)];
        (do 3 eexists; split; [reflexivity|]; split; [find_line|split; reflexivity]).
  - rewrite update_exif_date_spec.
    destruct (new_bytes s p d) as [b|e']; [|rewrite (copy2_present _ _ _ _ Hp)];
      (do 3 eexists; split; [reflexivity|]; split; [find_line|split; reflexivity]).
Qed.


(** What the loop body leaves in place: the files that were there. *)
Lemma write_keeps p data s q :
  is_Some (files s !! q) -> is_Some (files (write p data s) !! q).
Proof.
  intros H. unfold write. simpl. rewrite lookup_insert.
  destruct (decide (p = q)); eauto.
Qed.

Lemma process_image_counts out p r s fd data :
  _extract_date_from_filename (path_name p) = Return fd ->
  files s !! p = Some data ->
  ∃ r' s' o,
    process out p r s = (Return r', s', o)
    ∧ (∀ q, is_Some (files s !! q) -> is_Some (files s' !! q))
    ∧ match fd with
      | Some _ => r' = incr_updated r ∨ r' = incr_added r
                  ∨ r' = incr_failed r ∨ r' = incr_preserved r
      | None => r' = r
      end.
Proof.
  intros Hfd Hp.
  destruct (process_image_spec out p r s fd data Hfd Hp) as (r' & s' & o & -> & _ & H).
  exists r', s', o. split; [reflexivity|].
  unfold reconcile in H.
  destruct fd as [d|]; [destruct (date_of s p) as [e|];
    [destruct (date_eqb (date_part d) (date_part e))|]|];
    try destruct (new_bytes s p d);
    destruct H as [-> ->]; (split; [intros q; apply write_keeps|]);
    repeat first [reflexivity | left; reflexivity | right].
Qed.

Lemma total_incr r :
  total (incr_updated r) = total r + 1 ∧ total (incr_added r) = total r + 1
  ∧ total (incr_failed r) = total r + 1 ∧ total (incr_preserved r) = total r + 1.
Proof. unfold total. simpl. lia. Qed.

Lemma for_each_counts out l : ∀ r s,
  Forall (fun p => raises (_extract_date_from_filename (path_name p)) = false
                   ∧ is_Some (files s !! p)) l ->
  ∃ r' s' o,
    for_each l (process out) r s = (Return r', s', o)
    ∧ total r' = total r + N.of_nat (length (filter (fun p => dated p = true) l)).
Proof.
  induction l as [|p l IH]; intros r s Hl.
  - exists r, s, []. split; [reflexivity|]. simpl. lia.
  - inversion Hl as [|? ? [Hr [data Hp]] Hl']; subst.
    destruct (_extract_date_from_filename (path_name p)) as [fd|] eqn:Hfd; [|discriminate].
    destruct (process_image_counts out p r s fd data Hfd Hp) as (r1 & s1 & o1 & E1 & Hk & Hc).
    destruct (IH r1 s1) as (r' & s' & o' & E' & Ht).
    { eapply Forall_impl; [exact Hl'|]. simpl. intros q [? ?]. split; [assumption|]. apply Hk. assumption. }
    exists r', s', (o1 ++ o'). split.
    + simpl. unfold bind. fold (process out). rewrite E1, E'. reflexivity.
    + assert (Hd : dated p = match fd with Some _ => true | None => false end)
        by (unfold dated; rewrite Hfd; reflexivity).
      rewrite Ht, filter_cons.
      pose proof (total_incr r) as (? & ? & ? & ?).
      destruct fd as [d|].
      * rewrite decide_True by exact Hd. simpl length.
        destruct Hc as [-> | [-> | [-> | ->]]]; lia.
      * rewrite decide_False by (rewrite Hd; discriminate). subst r1. reflexivity.
Qed.

(** C1. The loop body follows the decision table: with the filename date
    and the embedded date [_get_exif_date] returns for a file, it
    announces the action [reconcile] selects (the comparison is on the
    calendar day) and does what that row asks.  No filename date
    (Unparseable): the file is copied as it is and no counter moves.
    Same day (Preserve): copied as it is, [preserved] counted.  No
    embedded date (Add) or another day (Overwrite): [_update_exif_date]
    runs; on [True] its output stays and [added] or [updated] is counted,
    on [False] the file is copied as it is and [failed] counted. *)
Theorem reconcile_table out p r s fd data :
  _extract_date_from_filename (path_name p) = Return fd ->
  files s !! p = Some data ->
  ∃ ed o1 r' s' o,
    get_exif_date p s = (Return ed, s, o1)
    ∧ process out p r s = (Return r', s', o)
    ∧ In (announced (reconcile fd ed) (path_name p)) o
    ∧ match reconcile fd ed, fd with
      | Unparseable, None => r' = r ∧ s' = write (path_join out (path_name p)) data s
      | Preserve, Some _ =>
        r' = incr_preserved r ∧ s' = write (path_join out (path_name p)) data s
      | Add, Some d =>
        ∃ ok s1 o2,
          update_exif_date p d (path_join out (path_name p)) s = (Return ok, s1, o2)
          ∧ if ok then r' = incr_added r ∧ s' = s1
            else r' = incr_failed r ∧ s' = write (path_join out (path_name p)) data s
      | Overwrite, Some d =>
        ∃ ok s1 o2,
          update_exif_date p d (path_join out (path_name p)) s = (Return ok, s1, o2)
          ∧ if ok then r' = incr_updated r ∧ s' = s1
            else r' = incr_failed r ∧ s' = write (path_join out (path_name p)) data s
      | _, _ => False
      end.
Proof.
  intros Hfd Hp.
  destruct (get_exif_date_spec p s) as [o1 Hg].
  destruct (process_image_spec out p r s fd data Hfd Hp) as (r' & s' & o & E & Ha & H).
  exists (date_of s p), o1, r', s', o.
  split; [assumption|]. split; [assumption|]. split; [assumption|].
  unfold reconcile in *.
  destruct fd as [d|]; [|assumption].
  destruct (date_of s p) as [e|];
    [destruct (date_eqb (date_part d) (date_part e)); [assumption|]|];
    rewrite update_exif_date_spec;
    (destruct (new_bytes s p d) as [b|e']; do 3 eexists; (split; [reflexivity|]); exact H).
Qed.

(** C5. Each file whose name yields a date moves exactly one of the four
    counters by one, a file whose name yields none moves no counter, and
    a run over files that exist and whose names do not make [strptime]
    raise ends with updated + added + failed + preserved risen by the
    number of files whose name yields a date. *)
Theorem counters_sum :
  (∀ out p r s fd data,
      _extract_date_from_filename (path_name p) = Return fd ->
      files s !! p = Some data ->
      ∃ r' s' o,
        process out p r s = (Return r', s', o)
        ∧ match fd with
          | Some _ =>
            (r' = incr_updated r ∨ r' = incr_added r
             ∨ r' = incr_failed r ∨ r' = incr_preserved r)
            ∧ total r' = total r + 1
          | None => r' = r
          end)
  ∧ (∀ out l s,
      Forall (fun p => raises (_extract_date_from_filename (path_name p)) = false
                       ∧ is_Some (files s !! p)) l ->
      ∃ r' s' o,
        for_each l (process out) new_report s = (Return r', s', o)
        ∧ updated r' + added r' + failed r' + preserved r'
          = N.of_nat (length (filter (fun p => dated p = true) l))).
Proof.
  split.
  - intros out p r s fd data Hfd Hp.
    destruct (process_image_counts out p r s fd data Hfd Hp) as (r' & s' & o & E & _ & Hc).
    exists r', s', o. split; [assumption|].
    destruct fd; [|assumption]. split; [assumption|].
    pose proof (total_incr r) as (? & ? & ? & ?).
    destruct Hc as [-> | [-> | [-> | ->]]]; assumption.
  - intros out l s Hl.
    destruct (for_each_counts out l new_report s Hl) as (r' & s' & o & E & Ht).
    exists r', s', o. split; [assumption|]. exact Ht.
Qed.



(** ** Writing the date *)

Lemma new_bytes_loaded s p nd data d d' :
  files s !! p = Some data -> piexif_load data = Return d ->
  set_date_fields d nd = Return d' ->
  new_bytes s p nd = rbind (piexif_dump d') (fun exif_bytes => piexif_insert exif_bytes data).
Proof.
  intros Hp Hl Hd. unfold updated_bytes.
  rewrite (read_file_present _ _ _ Hp). cbn [rbind]. rewrite Hl. cbn [rbind]. rewrite Hd.
  reflexivity.
Qed.


(** C10. Whenever lines 134-146 give a block, every field of the loaded
    block other than date-time original, date-time digitized and the
    top-level date-time is in it unchanged, and so is the thumbnail. *)
Theorem apply_date_keeps_other_fields d nd d' :
  set_date_fields d nd = Return d' ->
  thumbnail d' = thumbnail d
  ∧ ∀ name tag,
      (name, tag) ≠ ("Exif", DateTimeOriginal) ->
      (name, tag) ≠ ("Exif", DateTimeDigitized) ->
      (name, tag) ≠ ("0th", DateTime) ->
      field name tag d' = field name tag d.
Proof.
  intros Hd. destruct (set_date_fields_spec d nd) as (d'' & Hd' & Ht & Hf).
  rewrite Hd in Hd'. injection Hd' as <-.
  split; [assumption|].
  intros name tag H1 H2 H3. rewrite Hf.
  replace (is_date_field name tag) with false; [reflexivity|].
  symmetry. unfold is_date_field.
  destruct (String.eqb_spec name "Exif") as [->|]; cbn [andb orb].
  - change (String.eqb "Exif" "0th") with false. cbn [andb orb].
    destruct (N.eqb_spec tag DateTimeOriginal) as [E|]; [congruence|].
    destruct (N.eqb_spec tag DateTimeDigitized) as [E|]; [congruence|].
    reflexivity.
  - destruct (String.eqb_spec name "0th") as [->|]; cbn [andb orb]; [|reflexivity].
    destruct (N.eqb_spec tag DateTime) as [E|]; [congruence|reflexivity].
Qed.

(** ** Reading the date *)

Lemma field_has_ifd name tag d v : field name tag d = Some v -> has_ifd name d = true.
Proof.
  unfold field. rewrite has_ifd_lookup. destruct (ifds d !! name); [reflexivity|discriminate].
Qed.

(** C6. [_get_exif_date] never raises and leaves the files alone.  For a
    file whose block loads (with the Exif section [piexif.load] always
    gives) it returns the date-time original field parsed as
    YYYY:MM:DD HH:MM:SS when the field is present, else the generic
    date-time field parsed the same way, and none when neither is present
    or the value found is malformed; when the block does not load it
    returns none.  (A block with no Exif section at all, which
    [piexif.load] never returns, gives none at line 111.) *)
Theorem embedded_date_read p s :
  (∃ v o, get_exif_date p s = (Return v, s, o))
  ∧ (∀ data d,
      files s !! p = Some data -> piexif_load data = Return d ->
      has_ifd "Exif" d = true ->
      ∃ o, get_exif_date p s = (Return (embedded_date d), s, o))
  ∧ (∀ data e,
      files s !! p = Some data -> piexif_load data = Raise e ->
      ∃ o, get_exif_date p s = (Return None, s, o))
  ∧ (∀ data d,
      files s !! p = Some data -> piexif_load data = Return d ->
      has_ifd "Exif" d = false ->
      ∃ o, get_exif_date p s = (Return None, s, o)).
Proof.
  destruct (get_exif_date_spec p s) as [o Ho].
  split; [eauto|]. split; [|split].
  - intros data d Hp Hl He. exists o. rewrite Ho. unfold exif_date_of.
    rewrite Hp, Hl, He. reflexivity.
  - intros data e Hp Hl. exists o. rewrite Ho. unfold exif_date_of.
    rewrite Hp, Hl. reflexivity.
  - intros data d Hp Hl He. exists o. rewrite Ho. unfold exif_date_of.
    rewrite Hp, Hl, He. reflexivity.
Qed.

(** What [_get_exif_date] makes of a block whose date-time original
    field holds the text lines 141-144 write for a date. *)
Lemma reread_written p s data d0 nd :
  valid_date (year nd) (month nd) (day nd) = true ->
  files s !! p = Some data -> piexif_load data = Return d0 ->
  field "Exif" DateTimeOriginal d0
  = Some (Bytes (encode_utf8 (strftime "%Y:%m:%d 09:00:00" nd))) ->
  ∃ o, get_exif_date p s
       = (Return (if 1000 <=? year nd
                  then Some (mk_datetime (year nd) (month nd) (day nd) 9 0 0)
                  else None), s, o).
Proof.
  intros Hv Hp Hl HO.
  destruct (valid_date_bounds _ _ _ Hv) as ([_ Hy] & _).
  destruct (get_exif_date_spec p s) as [o ->]. exists o.
  unfold exif_date_of. rewrite Hp, Hl, (field_has_ifd _ _ _ _ HO).
  unfold embedded_date. rewrite HO. unfold parse_field, decode.
  rewrite decode_encode by (apply strftime_ascii; assumption). cbn [rbind].
  rewrite strptime_strftime_cases by assumption.
  destruct (1000 <=? year nd); reflexivity.
Qed.

Lemma written_field d nd d' :
  set_date_fields d nd = Return d' ->
  field "Exif" DateTimeOriginal d'
  = Some (Bytes (encode_utf8 (strftime "%Y:%m:%d 09:00:00" nd))).
Proof.
  intros Hd. destruct (set_date_fields_spec d nd) as (d'' & Hd' & _ & Hf).
  rewrite Hd in Hd'. injection Hd' as <-.
  apply (Hf "Exif" DateTimeOriginal).
Qed.

(** C8, where the code departs from it.  When the block of a file is
    what lines 134-146 give for a filename date, [_get_exif_date] reads
    back that calendar date at 09:00:00 if the year has four digits; for
    a year below 1000 line 141 writes the year with fewer than four
    digits (not the YYYY its comment announces), [strptime] refuses the
    text and [_get_exif_date] returns none. *)
Theorem round_trip p s data d d' nd :
  valid_date (year nd) (month nd) (day nd) = true ->
  set_date_fields d nd = Return d' ->
  files s !! p = Some data -> piexif_load data = Return d' ->
  ∃ o, get_exif_date p s
       = (Return (if 1000 <=? year nd
                  then Some (mk_datetime (year nd) (month nd) (day nd) 9 0 0)
                  else None), s, o).
Proof.
  intros Hv Hd Hp Hl.
  apply (reread_written p s data d' nd Hv Hp Hl (written_field _ _ _ Hd)).
Qed.

(** The same through the files, for a codec that keeps the date-time
    original field it is given: [_update_exif_date] writes the output
    copy, and reading the copy yields the date of the name at 09:00:00
    when the year has four digits. *)
Lemma round_trip_file p out s data d d' exif_bytes new_data d'' nd :
  valid_date (year nd) (month nd) (day nd) = true ->
  files s !! p = Some data -> piexif_load data = Return d ->
  set_date_fields d nd = Return d' ->
  piexif_dump d' = Return exif_bytes -> piexif_insert exif_bytes data = Return new_data ->
  piexif_load new_data = Return d'' ->
  field "Exif" DateTimeOriginal d'' = field "Exif" DateTimeOriginal d' ->
  update_exif_date p nd out s = (Return true, write out new_data s, [])
  ∧ ∃ o, get_exif_date out (write out new_data s)
         = (Return (if 1000 <=? year nd
                    then Some (mk_datetime (year nd) (month nd) (day nd) 9 0 0)
                    else None),
            write out new_data s, o).
Proof.
  intros Hv Hp Hl Hd Hdump Hins Hback Hkeep. split.
  - rewrite update_exif_date_spec, (new_bytes_loaded _ _ _ _ _ _ Hp Hl Hd), Hdump.
    simpl. rewrite Hins. reflexivity.
  - apply (reread_written out (write out new_data s) new_data d'' nd Hv).
    + unfold write. simpl files. apply lookup_insert_eq.
    + assumption.
    + rewrite Hkeep. apply (written_field _ _ _ Hd).
Qed.

(** ** Failures *)

(** C7. [_update_exif_date] never raises: it returns [True] or [False],
    and [False] leaves the files as they were.  When the loop body calls
    it (the action is Add or Overwrite) and it returns [False], the loop
    body copies the file as it is to the output and counts it as
    [failed]: the counter [failed] rises by one and the three other
    counters stay. *)
Theorem update_failure_falls_back :
  (∀ p nd out s, ∃ ok s' o,
      update_exif_date p nd out s = (Return ok, s', o) ∧ (ok = false -> s' = s))
  ∧ (∀ out p r s d data ed,
      _extract_date_from_filename (path_name p) = Return (Some d) ->
      files s !! p = Some data ->
      (get_exif_date p s).1.1 = Return ed ->
      reconcile (Some d) ed ≠ Preserve ->
      (update_exif_date p d (path_join out (path_name p)) s).1.1 = Return false ->
      ∃ r' o, process out p r s
              = (Return r', write (path_join out (path_name p)) data s, o)
              ∧ failed r' = failed r + 1 ∧ updated r' = updated r
              ∧ added r' = added r ∧ preserved r' = preserved r).
Proof.
  split.
  - intros p nd out s. rewrite update_exif_date_spec.
    destruct (new_bytes s p nd); do 3 eexists; (split; [reflexivity|]);
      [discriminate|reflexivity].
  - intros out p r s d data ed Hfd Hp Hg Hact Hu.
    destruct (get_exif_date_spec p s) as [o1 Ho1]. rewrite Ho1 in Hg.
    simpl in Hg. injection Hg as <-.
    rewrite update_exif_date_spec in Hu.
    destruct (new_bytes s p d) as [b|e] eqn:Hb; [discriminate|].
    destruct (process_image_spec out p r s (Some d) data Hfd Hp) as (r' & s' & o & E & _ & H).
    exists r', o. rewrite E.
    unfold reconcile in Hact, H.
    destruct (date_of s p) as [e0|];
      [destruct (date_eqb (date_part d) (date_part e0)); [congruence|]|];
      rewrite Hb in H; destruct H as [-> ->]; repeat split; reflexivity.
Qed.

(** C4, as the code has it.  When the block of a file whose name yields
    a date does not load, the failure is caught and reported in the read
    and again in the update, the file is copied as it is and counted as
    [failed]: the counter [failed] rises by one and the three other
    counters stay. *)
Theorem load_failure_counted out p r s d data e :
  _extract_date_from_filename (path_name p) = Return (Some d) ->
  files s !! p = Some data ->
  piexif_load data = Raise e ->
  get_exif_date p s = (Return None, s, [ErrorReading p e])
  ∧ ∃ o, process out p r s
         = (Return (incr_failed r), write (path_join out (path_name p)) data s, o)
         ∧ In (ErrorReading p e) o ∧ In (ErrorUpdating p e) o
         ∧ failed (incr_failed r) = failed r + 1 ∧ updated (incr_failed r) = updated r
         ∧ added (incr_failed r) = added r ∧ preserved (incr_failed r) = preserved r.
Proof.
  intros Hfd Hp Hl.
  assert (Hg : get_exif_date p s = (Return None, s, [ErrorReading p e])).
  { unfold _get_exif_date, try_except, bind, load.
    rewrite (read_file_present _ _ _ Hp). cbn [rbind]. rewrite Hl. reflexivity. }
  split; [assumption|].
  unfold process_image, bind, print, lift, ret. rewrite Hfd. cbv beta iota.
  rewrite Hg, update_exif_date_spec. unfold updated_bytes.
  rewrite (read_file_present _ _ _ Hp). cbn [rbind]. rewrite Hl.
  cbn [rbind]. rewrite (copy2_present _ _ _ _ Hp).
  eexists. split; [reflexivity|]. split; [find_line|]. split; [find_line|].
  repeat split; reflexivity.
Qed.

(** ** The run *)

(** C9. When no file is found, [main] prints the count and that no file
    was found, and returns: the file system is as it was (no output
    directory, no copy) and the report is not printed. *)
Theorem empty_input_ends_early now s :
  glob s (INPUT_DIR PROJECT_DIR) "*.jpg" ++ glob s (INPUT_DIR PROJECT_DIR) "*.JPG"
  ++ glob s (INPUT_DIR PROJECT_DIR) "*.jpeg" ++ glob s (INPUT_DIR PROJECT_DIR) "*.JPEG" = [] ->
  main piexif_load piexif_dump piexif_insert glob PROJECT_DIR now s
  = (Return tt, s, [Found 0; Text "No .jpg files found in input directory"]).
Proof.
  intros H. unfold main, bind at 1. unfold _read_files. rewrite H. reflexivity.
Qed.

(** A name on which [strptime] raises stops the loop body, and with it
    the run: nothing is copied, no counter moves. *)
Lemma process_image_raises out p r s e :
  _extract_date_from_filename (path_name p) = Raise e ->
  process out p r s = (Raise e, s, [Processing (path_name p)]).
Proof.
  intros H. unfold process_image, bind, print, lift. rewrite H. reflexivity.
Qed.

(** ** The date of a filename *)

(** No match: no date. *)
Lemma extract_no_match filename :
  re_search pattern filename = None -> _extract_date_from_filename filename = Return None.
Proof. intros H. unfold _extract_date_from_filename. rewrite H. reflexivity. Qed.

(** The first match holds the eight digits of a date of the calendar:
    that date. *)
Lemma extract_valid_match filename m y mo d :
  re_search pattern filename = Some m ->
  group1 m = pad4 y +:+ pad2 mo +:+ pad2 d ->
  valid_date y mo d = true ->
  _extract_date_from_filename filename = Return (Some (mk_datetime y mo d 0 0 0)).
Proof.
  intros H Hg Hv. unfold _extract_date_from_filename. rewrite H, Hg.
  rewrite strptime_date by assumption. reflexivity.
Qed.

(** C2, where the code departs from it.  The name IMG-20201307-WA0029.jpg
    matches the pattern with month 13: [strptime] raises [ValueError],
    [_extract_date_from_filename] lets it through instead of returning
    none, and the loop body stops there, whatever the codec and the
    files: nothing is copied and no counter moves. *)
Theorem invalid_date_name_raises :
  re_search pattern "IMG-20201307-WA0029.jpg" = Some "IMG-20201307-"
  ∧ _extract_date_from_filename "IMG-20201307-WA0029.jpg" = Raise ValueError
  ∧ ∀ out dir r s,
      process out (path_join dir "IMG-20201307-WA0029.jpg") r s
      = (Raise ValueError, s, [Processing "IMG-20201307-WA0029.jpg"]).
Proof.
  split; [reflexivity|]. split; [reflexivity|].
  intros out dir r s.
  assert (Hn : path_name (path_join dir "IMG-20201307-WA0029.jpg") = "IMG-20201307-WA0029.jpg").
  { unfold path_name, path_join. apply last_last. }
  rewrite process_image_raises with (e := ValueError); rewrite Hn; reflexivity.
Qed.

End Properties.

(** ** The program on concrete inputs *)

(** The four scenarios of the specification, on the small codec. *)
Example scenario_added :
  (Toy.process_image ["out"] Toy.photo new_report (Toy.disk "")).1.1
  = Return (mk_report 0 1 0 0)
  ∧ files (Toy.process_image ["out"] Toy.photo new_report (Toy.disk "")).1.2 !! Toy.copy
    = Some (Toy.image "2020:11:07 09:00:00").
Proof. split; vm_compute; reflexivity. Qed.

Example scenario_preserved :
  (Toy.process_image ["out"] Toy.photo new_report (Toy.disk "2020:11:07 14:22:01")).1.1
  = Return (mk_report 0 0 0 1)
  ∧ files (Toy.process_image ["out"] Toy.photo new_report (Toy.disk "2020:11:07 14:22:01")).1.2
    !! Toy.copy
    = Some (Toy.image "2020:11:07 14:22:01").
Proof. split; vm_compute; reflexivity. Qed.

Example scenario_updated :
  (Toy.process_image ["out"] Toy.photo new_report (Toy.disk "2019:01:01 00:00:00")).1.1
  = Return (mk_report 1 0 0 0)
  ∧ files (Toy.process_image ["out"] Toy.photo new_report (Toy.disk "2019:01:01 00:00:00")).1.2
    !! Toy.copy
    = Some (Toy.image "2020:11:07 09:00:00").
Proof. split; vm_compute; reflexivity. Qed.

Example scenario_unparsed :
  (Toy.process_image ["out"] Toy.other new_report (Toy.disk "")).1.1 = Return new_report
  ∧ files (Toy.process_image ["out"] Toy.other new_report (Toy.disk "")).1.2
    !! ["out"; "random_photo.jpg"]
    = Some (Toy.image "").
Proof. split; vm_compute; reflexivity. Qed.

(** A name of month 13 ends the run at that file: the photo listed after
    it is not copied and the report is not printed. *)
Example run_stops_at_invalid_name :
  (Toy.main [Toy.smarch; Toy.photo] Toy.day Toy.smarch_disk).1.1 = Raise ValueError
  ∧ (Toy.main [Toy.smarch; Toy.photo] Toy.day Toy.smarch_disk).2
    = [Found 2; Processing "IMG-20201307-WA0029.jpg"]
  ∧ files (Toy.main [Toy.smarch; Toy.photo] Toy.day Toy.smarch_disk).1.2 = files Toy.smarch_disk.
Proof. repeat split; vm_compute; reflexivity. Qed.

(** C4, as worded, fails.  The photo's date field holds 0000:00:00
    00:00:00: the read fails ([ValueError], caught and reported), yet the
    file is not copied as it is and [failed] does not move; the date is
    added and [added] counted. *)
Lemma read_failure_counterexample :
  _extract_date_from_filename (path_name Toy.photo) = Return (Some Toy.day)
  ∧ _get_exif_date Toy.load Toy.photo (Toy.disk "0000:00:00 00:00:00")
    = (Return None, Toy.disk "0000:00:00 00:00:00", [ErrorReading Toy.photo ValueError])
  ∧ (Toy.process_image ["out"] Toy.photo new_report (Toy.disk "0000:00:00 00:00:00")).1.1
    = Return (incr_added new_report)
  ∧ incr_added new_report ≠ incr_failed new_report
  ∧ files (Toy.process_image ["out"] Toy.photo new_report (Toy.disk "0000:00:00 00:00:00")).1.2
    !! Toy.copy
    = Some (Toy.image "2020:11:07 09:00:00")
  ∧ files (Toy.disk "0000:00:00 00:00:00") !! Toy.photo = Some (Toy.image "0000:00:00 00:00:00")
  ∧ Toy.image "2020:11:07 09:00:00" ≠ Toy.image "0000:00:00 00:00:00".
Proof.
  repeat split; try (vm_compute; reflexivity); discriminate.
Qed.

(** ** The theorems at concrete inputs *)

(** [reconcile_table] on a photo whose embedded date is the day of its
    name, at another hour: preserved. *)
Lemma reconcile_table_witness :
  _extract_date_from_filename (path_name Toy.photo) = Return (Some Toy.day)
  ∧ files (Toy.disk "2020:11:07 14:22:01") !! Toy.photo = Some (Toy.image "2020:11:07 14:22:01")
  ∧ ∃ r' s' o,
      Toy.process_image ["out"] Toy.photo new_report (Toy.disk "2020:11:07 14:22:01")
      = (Return r', s', o)
      ∧ r' = incr_preserved new_report
      ∧ s' = write Toy.copy (Toy.image "2020:11:07 14:22:01") (Toy.disk "2020:11:07 14:22:01").
Proof.
  assert (H1 : _extract_date_from_filename (path_name Toy.photo) = Return (Some Toy.day))
    by (vm_compute; reflexivity).
  assert (H2 : files (Toy.disk "2020:11:07 14:22:01") !! Toy.photo
               = Some (Toy.image "2020:11:07 14:22:01")) by (vm_compute; reflexivity).
  split; [exact H1|]. split; [exact H2|].
  destruct (reconcile_table Toy.load Toy.dump Toy.insert ["out"] _ new_report _ _ _ H1 H2)
    as (ed & o1 & r' & s' & o & Hg & E & _ & H).
  assert (Hed : ed = Some (mk_datetime 2020 11 7 14 22 1)).
  { vm_compute in Hg. injection Hg as <- _. reflexivity. }
  subst ed.
  exists r', s', o. split; [exact E|]. exact H.
Defined.


(** [load_failure_counted] on a photo that is no image. *)
Lemma load_failure_counted_witness :
  _extract_date_from_filename (path_name Toy.photo) = Return (Some Toy.day)
  ∧ files Toy.broken_disk !! Toy.photo = Some [Byte.x00]
  ∧ Toy.load [Byte.x00] = Raise (CodecError 1)
  ∧ ∃ r' o, Toy.process_image ["out"] Toy.photo (mk_report 3 2 1 4) Toy.broken_disk
            = (Return r', write Toy.copy [Byte.x00] Toy.broken_disk, o)
            ∧ In (ErrorReading Toy.photo (CodecError 1)) o
            ∧ failed r' = 2 ∧ updated r' = 3 ∧ added r' = 2 ∧ preserved r' = 4.
Proof.
  assert (H1 : _extract_date_from_filename (path_name Toy.photo) = Return (Some Toy.day))
    by (vm_compute; reflexivity).
  assert (H2 : files Toy.broken_disk !! Toy.photo = Some [Byte.x00]) by (vm_compute; reflexivity).
  assert (H3 : Toy.load [Byte.x00] = Raise (CodecError 1)) by reflexivity.
  split; [exact H1|]. split; [exact H2|]. split; [exact H3|].
  destruct (load_failure_counted Toy.load Toy.dump Toy.insert ["out"] _ (mk_report 3 2 1 4)
              _ _ _ _ H1 H2 H3)
    as (_ & o & E & Hr & _ & Hf & Hu & Ha & Hp).
  exists (incr_failed (mk_report 3 2 1 4)), o.
  split; [exact E|]. split; [exact Hr|].
  split; [exact Hf|]. split; [exact Hu|]. split; [exact Ha|exact Hp].
Defined.

(** [counters_sum] on a run over the photo and a file with no date in
    its name: one counter moved, once. *)
Lemma counters_sum_witness :
  ∃ r' s' o,
    for_each [Toy.photo; Toy.other] (Toy.process_image ["out"]) new_report (Toy.disk "")
    = (Return r', s', o)
    ∧ updated r' + added r' + failed r' + preserved r' = 1.
Proof.
  destruct (proj2 (counters_sum Toy.load Toy.dump Toy.insert) ["out"]
                  [Toy.photo; Toy.other] (Toy.disk "")) as (r' & s' & o & E & H).
  { repeat constructor; try (vm_compute; reflexivity); eexists; vm_compute; reflexivity. }
  exists r', s', o. split; [exact E|]. exact H.
Defined.

(** [embedded_date_read] on the photo: with a date-time original, with
    the top-level date-time only, with a value that is no date (month
    13), with no date field, and with bytes that are no image. *)
Lemma embedded_date_read_witness :
  (∃ o, _get_exif_date Toy.load Toy.photo (Toy.disk "2020:11:07 14:22:01")
        = (Return (Some (mk_datetime 2020 11 7 14 22 1)), Toy.disk "2020:11:07 14:22:01", o))
  ∧ (∃ o, _get_exif_date Toy.load_top Toy.photo (Toy.disk "2019:01:02 03:04:05")
          = (Return (Some (mk_datetime 2019 1 2 3 4 5)), Toy.disk "2019:01:02 03:04:05", o))
  ∧ (∃ o, _get_exif_date Toy.load Toy.photo (Toy.disk "2020:13:07 14:22:01")
          = (Return None, Toy.disk "2020:13:07 14:22:01", o))
  ∧ (∃ o, _get_exif_date Toy.load Toy.photo (Toy.disk "")
          = (Return None, Toy.disk "", o))
  ∧ (∃ o, _get_exif_date Toy.load Toy.photo Toy.broken_disk
          = (Return None, Toy.broken_disk, o)).
Proof.
  split; [|split; [|split; [|split]]].
  - apply (proj1 (proj2 (embedded_date_read Toy.load Toy.photo (Toy.disk "2020:11:07 14:22:01")))
                 (Toy.image "2020:11:07 14:22:01")
                 (Toy.block (encode_utf8 "2020:11:07 14:22:01")));
      vm_compute; reflexivity.
  - apply (proj1 (proj2 (embedded_date_read Toy.load_top Toy.photo
                           (Toy.disk "2019:01:02 03:04:05")))
                 (Toy.image "2019:01:02 03:04:05")
                 (Toy.top_block (encode_utf8 "2019:01:02 03:04:05")));
      vm_compute; reflexivity.
  - apply (proj1 (proj2 (embedded_date_read Toy.load Toy.photo (Toy.disk "2020:13:07 14:22:01")))
                 (Toy.image "2020:13:07 14:22:01")
                 (Toy.block (encode_utf8 "2020:13:07 14:22:01")));
      vm_compute; reflexivity.
  - apply (proj1 (proj2 (embedded_date_read Toy.load Toy.photo (Toy.disk "")))
                 (Toy.image "") Toy.empty_block);
      vm_compute; reflexivity.
  - apply (proj1 (proj2 (proj2 (embedded_date_read Toy.load Toy.photo Toy.broken_disk)))
                 [Byte.x00] (CodecError 1));
      vm_compute; reflexivity.
Defined.

(** [update_failure_falls_back] on a photo that is no image. *)
Lemma update_failure_falls_back_witness :
  (_update_exif_date Toy.load Toy.dump Toy.insert Toy.photo Toy.day Toy.copy Toy.broken_disk).1.1
  = Return false
  ∧ ∃ r' o, Toy.process_image ["out"] Toy.photo (mk_report 3 2 1 4) Toy.broken_disk
            = (Return r', write Toy.copy [Byte.x00] Toy.broken_disk, o)
            ∧ failed r' = 2 ∧ updated r' = 3 ∧ added r' = 2 ∧ preserved r' = 4.
Proof.
  split; [vm_compute; reflexivity|].
  apply (proj2 (update_failure_falls_back Toy.load Toy.dump Toy.insert)
               ["out"] Toy.photo (mk_report 3 2 1 4) Toy.broken_disk Toy.day [Byte.x00] None);
    try (vm_compute; reflexivity).
  discriminate.
Defined.

(** [round_trip] on the block written for the photo of the year 820:
    the name yields 820-01-07, the field is written as 820:01:07 09:00:00
    and read back as no date; and on the block written for the photo of
    2020, read back as 2020-11-07 09:00:00. *)
Lemma round_trip_witness :
  _extract_date_from_filename (path_name Toy.old_photo) = Return (Some Toy.old_day)
  ∧ valid_date 820 1 7 = true
  ∧ set_date_fields Toy.empty_block Toy.old_day
    = Return (Toy.block (String.list_byte_of_string "820:01:07 09:00:00"))
  ∧ (∃ o, _get_exif_date Toy.load Toy.old_photo (Toy.old_disk "820:01:07 09:00:00")
          = (Return None, Toy.old_disk "820:01:07 09:00:00", o))
  ∧ set_date_fields Toy.empty_block Toy.day
    = Return (Toy.block (String.list_byte_of_string "2020:11:07 09:00:00"))
  ∧ (∃ o, _get_exif_date Toy.load Toy.photo (Toy.disk "2020:11:07 09:00:00")
          = (Return (Some (mk_datetime 2020 11 7 9 0 0)), Toy.disk "2020:11:07 09:00:00", o)).
Proof.
  assert (H1 : valid_date 820 1 7 = true) by reflexivity.
  assert (H2 : set_date_fields Toy.empty_block Toy.old_day
               = Return (Toy.block (String.list_byte_of_string "820:01:07 09:00:00")))
    by (vm_compute; reflexivity).
  assert (H3 : valid_date 2020 11 7 = true) by reflexivity.
  assert (H4 : set_date_fields Toy.empty_block Toy.day
               = Return (Toy.block (String.list_byte_of_string "2020:11:07 09:00:00")))
    by (vm_compute; reflexivity).
  split; [vm_compute; reflexivity|]. split; [exact H1|]. split; [exact H2|].
  split; [|split; [exact H4|]].
  - apply (round_trip Toy.load Toy.old_photo (Toy.old_disk "820:01:07 09:00:00")
                      (Toy.image "820:01:07 09:00:00") Toy.empty_block _ Toy.old_day H1 H2);
      vm_compute; reflexivity.
  - apply (round_trip Toy.load Toy.photo (Toy.disk "2020:11:07 09:00:00")
                      (Toy.image "2020:11:07 09:00:00") Toy.empty_block _ Toy.day H3 H4);
      vm_compute; reflexivity.
Defined.

(** [empty_input_ends_early] on a directory with no image. *)
Lemma empty_input_ends_early_witness :
  Toy.main [] Toy.day (Toy.disk "")
  = (Return tt, Toy.disk "", [Found 0; Text "No .jpg files found in input directory"]).
Proof.
  apply (empty_input_ends_early Toy.load Toy.dump Toy.insert (Toy.glob []) ["project"]).
  reflexivity.
Defined.

(** [apply_date_keeps_other_fields] on a block that names the camera. *)
Lemma apply_date_keeps_other_fields_witness :
  ∃ d',
    set_date_fields Toy.camera_block Toy.day = Return d'
    ∧ field "0th" 271 d' = Some (Bytes (encode_utf8 "Canon")).
Proof.
  destruct (set_date_fields Toy.camera_block Toy.day) as [d'|e] eqn:E;
    [|vm_compute in E; discriminate].
  exists d'. split; [reflexivity|].
  destruct (apply_date_keeps_other_fields Toy.camera_block Toy.day d' E) as [_ H].
  rewrite H; [reflexivity|discriminate..].
Defined.

(** * More of the program *)

Section Run.

Variable piexif_load : list Byte.byte -> result exif_data.
Variable piexif_dump : exif_data -> result (list Byte.byte).
Variable piexif_insert : list Byte.byte -> list Byte.byte -> result (list Byte.byte).
Variable glob : fsys -> list string -> string -> list (list string).
Variable PROJECT_DIR : list string.

Abbreviation get_exif_date := (_get_exif_date piexif_load).
Abbreviation update_exif_date := (_update_exif_date piexif_load piexif_dump piexif_insert).
Abbreviation process := (process_image piexif_load piexif_dump piexif_insert).
Abbreviation run := (main piexif_load piexif_dump piexif_insert glob PROJECT_DIR).
Abbreviation read_files := (_read_files glob PROJECT_DIR).
Abbreviation output_dir := (OUTPUT_DIR PROJECT_DIR).
Abbreviation input_dir := (INPUT_DIR PROJECT_DIR).

(** ** What a file's processing may write *)

Lemma bind_unfold {A B} (m : M A) (k : A -> M B) s :
  bind m k s =
  match m s with
  | (Return a, s', o) => let '(r, s'', o') := k a s' in (r, s'', o ++ o')
  | (Raise e, s', o) => (Raise e, s', o)
  end.
Proof. reflexivity. Qed.

Lemma write_frame p data s q :
  q ≠ p -> files (write p data s) !! q = files s !! q.
Proof. intros H. unfold write. simpl. apply lookup_insert_ne. congruence. Qed.

Lemma copy2_frame src dst s :
  dirs (copy2 src dst s).1.2 = dirs s
  ∧ ∀ q, q ≠ dst -> files (copy2 src dst s).1.2 !! q = files s !! q.
Proof.
  unfold copy2. destruct (read_file s src); simpl; split; try reflexivity.
  intros q H. apply lookup_insert_ne. congruence.
Qed.

Lemma update_exif_date_frame p nd out s :
  dirs (update_exif_date p nd out s).1.2 = dirs s
  ∧ ∀ q, q ≠ out -> files (update_exif_date p nd out s).1.2 !! q = files s !! q.
Proof.
  rewrite update_exif_date_spec.
  destruct (updated_bytes _ _ _ s p nd); simpl; split; try reflexivity.
  intros q H. apply lookup_insert_ne. congruence.
Qed.

Lemma get_exif_date_state p s : (get_exif_date p s).1.2 = s.
Proof. destruct (get_exif_date_spec piexif_load p s) as [o ->]. reflexivity. Qed.

Lemma process_image_frame out p r s :
  dirs (process out p r s).1.2 = dirs s
  ∧ ∀ q, q ≠ path_join out (path_name p) ->
         files (process out p r s).1.2 !! q = files s !! q.
Proof.
  unfold process_image, bind, print, lift, ret.
  destruct (_extract_date_from_filename (path_name p)) as [[d|]|e]; cbv beta iota.
  - destruct (get_exif_date_spec piexif_load p s) as [o1 ->].
    destruct (exif_date_of piexif_load s p) as [ed|]; cbv beta iota.
    + destruct (date_eqb (date_part d) (date_part ed)).
      * pose proof (copy2_frame p (path_join out (path_name p)) s) as Hc.
        destruct (copy2 p (path_join out (path_name p)) s) as [[[[]|e] s1] o2]; exact Hc.
      * pose proof (update_exif_date_frame p d (path_join out (path_name p)) s) as Hu.
        destruct (update_exif_date p d (path_join out (path_name p)) s) as [[[[|]|e] s1] o2];
          simpl in Hu; try exact Hu.
        pose proof (copy2_frame p (path_join out (path_name p)) s1) as Hc.
        destruct (copy2 p (path_join out (path_name p)) s1) as [[[[]|e] s2] o3];
          simpl in Hc |- *; (split; [|intros q Hq; rewrite (proj2 Hc q Hq); apply Hu, Hq]);
          rewrite (proj1 Hc); apply Hu.
    + pose proof (update_exif_date_frame p d (path_join out (path_name p)) s) as Hu.
      destruct (update_exif_date p d (path_join out (path_name p)) s) as [[[[|]|e] s1] o2];
        simpl in Hu; try exact Hu.
      pose proof (copy2_frame p (path_join out (path_name p)) s1) as Hc.
      destruct (copy2 p (path_join out (path_name p)) s1) as [[[[]|e] s2] o3];
        simpl in Hc |- *; (split; [|intros q Hq; rewrite (proj2 Hc q Hq); apply Hu, Hq]);
        rewrite (proj1 Hc); apply Hu.
  - pose proof (copy2_frame p (path_join out (path_name p)) s) as Hc.
    destruct (copy2 p (path_join out (path_name p)) s) as [[[[]|e] s1] o2]; exact Hc.
  - split; [reflexivity|]. intros; reflexivity.
Qed.

(** X1. The copy of a file is the only thing its processing writes: every
    other file, and every directory, is as before, whether the
    processing returns or raises. *)
Theorem process_image_writes_output_only out p r s :
  dirs (process out p r s).1.2 = dirs s
  ∧ ∀ q, q ≠ path_join out (path_name p) ->
         files (process out p r s).1.2 !! q = files s !! q.
Proof. apply process_image_frame. Qed.

(** ** The run *)

Lemma for_each_frame out l : ∀ r s,
  dirs (for_each l (process out) r s).1.2 = dirs s
  ∧ ∀ q, (∀ p, In p l -> q ≠ path_join out (path_name p)) ->
         files (for_each l (process out) r s).1.2 !! q = files s !! q.
Proof.
  induction l as [|p l IH]; intros r s; [split; reflexivity|].
  cbn [for_each]. rewrite bind_unfold.
  pose proof (process_image_frame out p r s) as [Hd Hf].
  destruct (process out p r s) as [[[r1|e] s1] o1]; simpl in Hd, Hf.
  - destruct (IH r1 s1) as [Hd' Hf'].
    destruct (for_each l (process out) r1 s1) as [[res s2] o2]; simpl in *.
    split; [congruence|]. intros q Hq.
    rewrite Hf' by (intros p' Hp'; apply Hq; right; exact Hp').
    apply Hf, Hq. left; reflexivity.
  - simpl. split; [assumption|]. intros q Hq. apply Hf, Hq. left; reflexivity.
Qed.

Lemma for_each_app {A S} (l1 l2 : list A) (body : A -> S -> M S) (r : S) :
  ∀ s, for_each (l1 ++ l2) body r s = bind (for_each l1 body r) (for_each l2 body) s.
Proof.
  revert r. induction l1 as [|x l1 IH]; intros r s.
  - simpl. unfold bind, ret. destruct (for_each l2 body r s) as [[? ?] ?]. reflexivity.
  - simpl. rewrite !bind_unfold. destruct (body x r s) as [[[r1|e] s1] o1]; [|reflexivity].
    rewrite IH, bind_unfold.
    destruct (for_each l1 body r1 s1) as [[[r2|e] s2] o2]; [|reflexivity].
    destruct (for_each l2 body r2 s2) as [[? ?] ?]. rewrite app_assoc. reflexivity.
Qed.

(** [main] from the listing on, in closed form. *)
Lemma main_unfold now s :
  run now s =
  match listing glob PROJECT_DIR s with
  | [] => (Return tt, s, [Found 0; Text "No .jpg files found in input directory"])
  | l =>
    let sub := output_subdir_at PROJECT_DIR now in
    match for_each l (process sub) new_report
            (mk_fsys (files s) (dirs s ∪ list_to_set (with_parents sub))) with
    | (Return r', s', o) =>
      (Return tt, s',
       Found (length l) :: o ++ [Complete sub; Text "Update Report:"; Text (as_text r')])
    | (Raise e, s', o) => (Raise e, s', Found (length l) :: o)
    end
  end.
Proof.
  unfold main, _read_files. rewrite bind_unfold. unfold bind at 1, print at 1, ret at 1.
  fold (listing glob PROJECT_DIR s). simpl app.
  destruct (listing glob PROJECT_DIR s) as [|p l]; [reflexivity|].
  cbv zeta. fold (output_subdir_at PROJECT_DIR now).
  unfold bind, mkdir, print.
  destruct (for_each (p :: l) _ new_report _) as [[[r'|e] s'] o]; simpl; [|reflexivity].
  reflexivity.
Qed.

Lemma output_not_input now name name' :
  path_join (output_subdir_at PROJECT_DIR now) name ≠ path_join input_dir name'.
Proof.
  intros H. apply (f_equal (@List.length string)) in H.
  unfold output_subdir_at, OUTPUT_DIR, INPUT_DIR, path_join in H.
  rewrite !length_app in H. simpl in H. lia.
Qed.

(** X2. A run writes files only in its own output directory, whatever is
    listed and whether it ends or aborts: every other path holds what it
    held, and in particular no file of the input directory is touched. *)
Theorem main_writes_output_dir_only now s :
  (∀ q, (∀ name, q ≠ path_join (output_subdir_at PROJECT_DIR now) name) ->
        files (run now s).1.2 !! q = files s !! q)
  ∧ (∀ name, files (run now s).1.2 !! path_join input_dir name
             = files s !! path_join input_dir name).
Proof.
  assert (H : ∀ q, (∀ name, q ≠ path_join (output_subdir_at PROJECT_DIR now) name) ->
                   files (run now s).1.2 !! q = files s !! q).
  { intros q Hq. rewrite main_unfold.
    destruct (listing glob PROJECT_DIR s) as [|p l] eqn:El; [reflexivity|].
    cbv zeta.
    pose proof (for_each_frame (output_subdir_at PROJECT_DIR now) (p :: l) new_report
      (mk_fsys (files s) (dirs s ∪ list_to_set (with_parents (output_subdir_at PROJECT_DIR now)))))
      as [_ Hf].
    destruct (for_each (p :: l) _ new_report _) as [[[r'|e] s'] o]; simpl in Hf |- *;
      apply Hf; intros; apply Hq. }
  split; [exact H|].
  intros name. apply H. intros name' E. symmetry in E. revert E. apply output_not_input.
Qed.

Lemma process_image_copy out p r s fd data :
  _extract_date_from_filename (path_name p) = Return fd ->
  files s !! p = Some data ->
  ∃ r' s' o,
    process out p r s = (Return r', s', o)
    ∧ total r' = total r + match fd with Some _ => 1 | None => 0 end
    ∧ (∀ q, is_Some (files s !! q) -> is_Some (files s' !! q))
    ∧ is_Some (files s' !! path_join out (path_name p)).
Proof.
  intros Hfd Hp.
  destruct (process_image_spec piexif_load piexif_dump piexif_insert out p r s fd data Hfd Hp)
    as (r' & s' & o & -> & _ & H).
  exists r', s', o. split; [reflexivity|].
  pose proof (total_incr r) as (? & ? & ? & ?).
  unfold reconcile in H.
  destruct fd as [d|]; [destruct (exif_date_of piexif_load s p) as [e|];
    [destruct (date_eqb (date_part d) (date_part e))|]|];
    try destruct (updated_bytes piexif_load piexif_dump piexif_insert s p d);
    destruct H as [-> ->];
    (split; [first [assumption | lia]|]);
    (split; [intros q; apply write_keeps|]);
    unfold write; simpl; rewrite lookup_insert_eq; eauto.
Qed.

Lemma for_each_run out l : ∀ r s,
  Forall (processable s) l ->
  ∃ r' s' o,
    for_each l (process out) r s = (Return r', s', o)
    ∧ total r' = total r + N.of_nat (length (filter (fun p => dated p = true) l))
    ∧ (∀ q, is_Some (files s !! q) -> is_Some (files s' !! q))
    ∧ (∀ p, In p l -> is_Some (files s' !! path_join out (path_name p))).
Proof.
  induction l as [|p l IH]; intros r s Hl.
  - exists r, s, []. split; [reflexivity|]. split; [simpl; lia|].
    split; [auto|]. intros p [].
  - inversion Hl as [|? ? [Hr [data Hp]] Hl']; subst.
    destruct (_extract_date_from_filename (path_name p)) as [fd|] eqn:Hfd; [|discriminate].
    destruct (process_image_copy out p r s fd data Hfd Hp) as (r1 & s1 & o1 & E1 & Ht1 & Hk1 & Hc1).
    destruct (IH r1 s1) as (r' & s' & o' & E' & Ht & Hk & Hc).
    { eapply Forall_impl; [exact Hl'|]. intros q [? ?]. split; [assumption|]. apply Hk1. assumption. }
    exists r', s', (o1 ++ o'). split.
    { cbn [for_each]. rewrite bind_unfold, E1, E'. reflexivity. }
    split.
    { assert (Hd : dated p = match fd with Some _ => true | None => false end)
        by (unfold dated; rewrite Hfd; reflexivity).
      rewrite Ht, Ht1, filter_cons.
      destruct fd as [d|].
      - rewrite decide_True by exact Hd. simpl length. lia.
      - rewrite decide_False by (rewrite Hd; discriminate). lia. }
    split; [intros q Hq; apply Hk, Hk1, Hq|].
    intros q [<-|Hq]; [apply Hk, Hc1|apply Hc, Hq].
Qed.

(** X3. A run over a listing that is not empty, of files the loop body can
    handle, ends normally: the output directory and its parents exist,
    the report is the last thing printed, after one line that names the
    output directory, and its four counters sum to the number of files
    whose name yields a date. *)
Theorem main_prints_report now s :
  listing glob PROJECT_DIR s ≠ [] ->
  Forall (processable s) (listing glob PROJECT_DIR s) ->
  ∃ r' s' o,
    run now s
    = (Return tt, s',
       Found (length (listing glob PROJECT_DIR s)) :: o
       ++ [Complete (output_subdir_at PROJECT_DIR now); Text "Update Report:"; Text (as_text r')])
    ∧ updated r' + added r' + failed r' + preserved r'
      = N.of_nat (length (filter (fun p => dated p = true) (listing glob PROJECT_DIR s)))
    ∧ dirs s' = dirs s ∪ list_to_set (with_parents (output_subdir_at PROJECT_DIR now)).
Proof.
  intros Hne Hl. rewrite main_unfold.
  destruct (listing glob PROJECT_DIR s) as [|p l] eqn:El; [contradiction|].
  cbv zeta.
  set (s0 := mk_fsys (files s) _).
  destruct (for_each_run (output_subdir_at PROJECT_DIR now) (p :: l) new_report s0)
    as (r' & s' & o & E & Ht & _ & _); [exact Hl|].
  pose proof (for_each_frame (output_subdir_at PROJECT_DIR now) (p :: l) new_report s0) as [Hd _].
  rewrite E in Hd |- *. exists r', s', o.
  split; [reflexivity|]. split; [exact Ht|exact Hd].
Qed.

(** X4. In a run over a listing that is not empty, of files the loop
    body can handle, every listed file gets a copy in the output
    directory, under its own name. *)
Theorem main_copies_every_file now s :
  listing glob PROJECT_DIR s ≠ [] ->
  Forall (processable s) (listing glob PROJECT_DIR s) ->
  (run now s).1.1 = Return tt
  ∧ ∀ p, In p (listing glob PROJECT_DIR s) ->
         is_Some (files (run now s).1.2
                  !! path_join (output_subdir_at PROJECT_DIR now) (path_name p)).
Proof.
  intros Hne Hl. rewrite main_unfold.
  destruct (listing glob PROJECT_DIR s) as [|p l] eqn:El; [contradiction|].
  cbv zeta.
  destruct (for_each_run (output_subdir_at PROJECT_DIR now) (p :: l) new_report
              (mk_fsys (files s) (dirs s ∪ list_to_set (with_parents (output_subdir_at PROJECT_DIR now)))))
    as (r' & s' & o & -> & _ & _ & Hc); [exact Hl|].
  split; [reflexivity|]. exact Hc.
Qed.

(** X5. A listed file whose name makes [strptime] raise ends the run there:
    the files listed before it have their copies, the last line printed
    is the one that names the file, and the exception leaves [main], so
    no report is printed. *)
Theorem main_aborts_on_invalid_name now s l1 p l2 e :
  listing glob PROJECT_DIR s = l1 ++ p :: l2 ->
  Forall (processable s) l1 ->
  _extract_date_from_filename (path_name p) = Raise e ->
  ∃ s' o,
    run now s
    = (Raise e, s', Found (length (l1 ++ p :: l2)) :: o ++ [Processing (path_name p)])
    ∧ ∀ q, In q l1 ->
           is_Some (files s' !! path_join (output_subdir_at PROJECT_DIR now) (path_name q)).
Proof.
  intros El Hl He. rewrite main_unfold, El.
  destruct (l1 ++ p :: l2) as [|p0 l0] eqn:E0; [destruct l1; discriminate|].
  rewrite <- E0. cbv zeta.
  set (s0 := mk_fsys (files s) _).
  destruct (for_each_run (output_subdir_at PROJECT_DIR now) l1 new_report s0)
    as (r1 & s1 & o1 & E1 & _ & _ & Hc); [exact Hl|].
  rewrite for_each_app, bind_unfold, E1. cbn [for_each]. rewrite bind_unfold.
  rewrite (process_image_raises piexif_load piexif_dump piexif_insert _ _ _ _ _ He).
  exists s1, o1. split; [reflexivity|exact Hc].
Qed.

End Run.

(** ** The pattern of line 97 *)

Lemma append_assoc a : ∀ b c, (a +:+ b) +:+ c = a +:+ b +:+ c.
Proof.
  induction a as [|x a IH]; intros b c; [reflexivity|].
  rewrite !append_cons, IH. reflexivity.
Qed.

Lemma length_append a : ∀ b, String.length (a +:+ b) = (String.length a + String.length b)%nat.
Proof.
  induction a as [|x a IH]; intros b; [reflexivity|].
  rewrite append_cons. simpl. rewrite IH. reflexivity.
Qed.

Lemma substring_prefix m : ∀ r, substring 0 (String.length m) (m +:+ r) = m.
Proof.
  induction m as [|c m IH]; intros r; [destruct r; reflexivity|].
  rewrite append_cons. simpl. rewrite IH. reflexivity.
Qed.

(** The part of a text before its tail. *)
Lemma before_app m r : before (m +:+ r) r = m.
Proof.
  unfold before. rewrite length_append.
  replace (String.length m + String.length r - String.length r)%nat
    with (String.length m) by lia.
  apply substring_prefix.
Qed.

(** A character is read off the front of a text: what is read is a
    character by itself, and the text after it does not matter. *)
Lemma utf8_next_suffix s cp r :
  utf8_next s = Some (cp, r) -> ∃ t, s = t +:+ r ∧ utf8_next t = Some (cp, "").
Proof.
  destruct s as [|c s]; [discriminate|]. intros H. unfold utf8_next in H. cbv zeta in H.
  destruct (code c <? 128) eqn:E1.
  { injection H as <- <-. exists (String c ""). split; [reflexivity|].
    unfold utf8_next. rewrite E1. reflexivity. }
  destruct (code c <? 194) eqn:E2; [discriminate|].
  destruct (code c <? 224) eqn:E3.
  { destruct s as [|c1 s]; [discriminate|].
    destruct (continuation c1) as [a1|] eqn:A1; [|discriminate].
    injection H as <- <-. exists (String c (String c1 "")). split; [reflexivity|].
    unfold utf8_next. rewrite E1, E2, E3, A1. reflexivity. }
  destruct (code c <? 240) eqn:E4.
  { destruct s as [|c1 [|c2 s]]; try discriminate;
      destruct (continuation c1) as [a1|] eqn:A1; try discriminate.
    destruct (continuation c2) as [a2|] eqn:A2; [|discriminate].
    destruct (_ && _) eqn:R; [|discriminate].
    injection H as <- <-. exists (String c (String c1 (String c2 ""))). split; [reflexivity|].
    unfold utf8_next. cbv zeta. rewrite E1, E2, E3, E4, A1, A2, R. reflexivity. }
  destruct (code c <? 245) eqn:E5; [|discriminate].
  destruct s as [|c1 [|c2 [|c3 s]]]; try discriminate;
    destruct (continuation c1) as [a1|] eqn:A1; try discriminate;
    destruct (continuation c2) as [a2|] eqn:A2; try discriminate.
  destruct (continuation c3) as [a3|] eqn:A3; [|discriminate].
  destruct (_ && _) eqn:R; [|discriminate].
  injection H as <- <-. exists (String c (String c1 (String c2 (String c3 "")))).
  split; [reflexivity|].
  unfold utf8_next. cbv zeta. rewrite E1, E2, E3, E4, E5, A1, A2, A3, R. reflexivity.
Qed.

Lemma utf8_next_app t cp r :
  utf8_next t = Some (cp, "") -> utf8_next (t +:+ r) = Some (cp, r).
Proof.
  destruct t as [|c t]; [discriminate|]. rewrite append_cons. unfold utf8_next. cbv zeta.
  destruct (code c <? 128).
  { intros [= <- ->]. reflexivity. }
  destruct (code c <? 194); [discriminate|].
  destruct (code c <? 224).
  { destruct t as [|c1 t]; [discriminate|]. rewrite append_cons.
    destruct (continuation c1) as [a1|]; [|discriminate].
    intros [= <- ->]. reflexivity. }
  destruct (code c <? 240).
  { destruct t as [|c1 [|c2 t]]; try discriminate. rewrite !append_cons.
    destruct (continuation c1) as [a1|]; [|discriminate].
    destruct (continuation c2) as [a2|]; [|discriminate].
    destruct (_ && _); [|discriminate].
    intros [= <- ->]. reflexivity. }
  destruct (code c <? 245); [|discriminate].
  destruct t as [|c1 [|c2 [|c3 t]]]; try discriminate. rewrite !append_cons.
  destruct (continuation c1) as [a1|]; [|discriminate].
  destruct (continuation c2) as [a2|]; [|discriminate].
  destruct (continuation c3) as [a3|]; [|discriminate].
  destruct (_ && _); [|discriminate].
  intros [= <- ->]. reflexivity.
Qed.

(** What each atom accepts. *)
Lemma eat_lit c s r : eat (Lit c) s = Some r <-> s = String c r.
Proof.
  simpl. destruct s as [|c' s]; [split; discriminate|].
  destruct (Ascii.eqb_spec c c') as [<-|Hne]; split; intros H; try congruence.
Qed.

Lemma eat_sep s r :
  eat Sep s = Some r <-> ∃ c, s = String c r ∧ (c = "-"%char ∨ c = "_"%char).
Proof.
  simpl. destruct s as [|c s].
  { split; [discriminate|]. intros (c & H & _). discriminate. }
  destruct (Ascii.eqb c "-" || Ascii.eqb c "_") eqn:E.
  - apply orb_true_iff in E. rewrite !Ascii.eqb_eq in E. split.
    + intros [= <-]. exists c. split; [reflexivity|assumption].
    + intros (c' & [= <- <-] & _). reflexivity.
  - apply orb_false_iff in E. rewrite !Ascii.eqb_neq in E. split; [discriminate|].
    intros (c' & [= <- <-] & [H|H]); destruct E; contradiction.
Qed.

Lemma eat_digit s r : eat Digit s = Some r <-> ∃ t, s = t +:+ r ∧ digit_text t.
Proof.
  unfold eat, any_digit, digit_text. split.
  - destruct (utf8_next s) as [[cp r']|] eqn:E; [|discriminate].
    destruct (decimal_value cp) as [v|] eqn:Ev; [|discriminate].
    intros [= <-]. destruct (utf8_next_suffix _ _ _ E) as (t & -> & Ht).
    exists t. split; [reflexivity|]. exists cp, v. split; assumption.
  - intros (t & -> & cp & v & Ht & Hv).
    rewrite (utf8_next_app _ _ r Ht), Hv. reflexivity.
Qed.

Lemma eat_suffix a s r : eat a s = Some r -> ∃ t, s = t +:+ r.
Proof.
  destruct a.
  - intros H. apply eat_lit in H. subst s. exists (String c ""). reflexivity.
  - intros H. apply eat_sep in H. destruct H as (c & -> & _). exists (String c ""). reflexivity.
  - intros H. apply eat_digit in H. destruct H as (t & -> & _). exists t. reflexivity.
Qed.

(** The text left after a match is a tail of the text. *)
Lemma match_atoms_suffix p : ∀ s r, match_atoms p s = Some r -> ∃ m, s = m +:+ r.
Proof.
  induction p as [|a p IH]; intros s r H; cbn [match_atoms] in H.
  - injection H as <-. exists "". reflexivity.
  - destruct (eat a s) as [r1|] eqn:E; [|discriminate].
    destruct (eat_suffix _ _ _ E) as (t & ->). destruct (IH _ _ H) as (m & ->).
    exists (t +:+ m). rewrite append_assoc. reflexivity.
Qed.

(** [re_search] reports the match at the leftmost position that has
    one. *)
Lemma re_search_leftmost p : ∀ s m,
  re_search p s = Some m ->
  ∃ pre suf post,
    s = pre +:+ suf ∧ match_atoms p suf = Some post ∧ m = before suf post
    ∧ ∀ pre' suf', s = pre' +:+ suf' -> (String.length pre' < String.length pre)%nat ->
                    match_atoms p suf' = None.
Proof.
  induction s as [|c r IH]; intros m H; cbn [re_search] in H.
  - destruct (match_atoms p "") as [post|] eqn:E; [|discriminate].
    injection H as <-. exists "", "", post. split; [reflexivity|]. split; [assumption|].
    split; [reflexivity|]. intros pre' suf' _ Hl. simpl in Hl. lia.
  - destruct (match_atoms p (String c r)) as [post|] eqn:E.
    + injection H as <-. exists "", (String c r), post.
      split; [reflexivity|]. split; [assumption|]. split; [reflexivity|].
      intros pre' suf' _ Hl. simpl in Hl. lia.
    + destruct (IH _ H) as (pre & suf & post & -> & Hm & Hb & Hno).
      exists (String c pre), suf, post.
      split; [reflexivity|]. split; [assumption|]. split; [assumption|].
      intros [|c' pre''] suf' Hs Hl.
      * rewrite append_nil in Hs. subst suf'. exact E.
      * rewrite append_cons in Hs. injection Hs as <- Hs.
        apply (Hno pre'' suf' Hs). simpl in Hl. lia.
Qed.

Lemma re_search_nowhere p : ∀ s,
  re_search p s = None -> ∀ pre' suf, s = pre' +:+ suf -> match_atoms p suf = None.
Proof.
  induction s as [|c r IH]; intros H pre' suf Hs; cbn [re_search] in H.
  - destruct pre'; [|discriminate]. rewrite append_nil in Hs. subst suf.
    destruct (match_atoms p ""); [discriminate|reflexivity].
  - destruct (match_atoms p (String c r)) as [m'|] eqn:E; [discriminate|].
    destruct pre' as [|c' pre''].
    + rewrite append_nil in Hs. subst suf. exact E.
    + rewrite append_cons in Hs. injection Hs as <- Hs. exact (IH H pre'' suf Hs).
Qed.

Lemma match_atoms_cons a p s :
  match_atoms (a :: p) s
  = match eat a s with Some r => match_atoms p r | None => None end.
Proof. reflexivity. Qed.

(** What the pattern matches at a position. *)
Lemma match_pattern_shape s post :
  match_atoms pattern s = Some post <-> ∃ m, s = m +:+ post ∧ stamped m.
Proof.
  split.
  - unfold pattern. rewrite !match_atoms_cons. cbn [match_atoms].
    destruct (eat (Lit "I") s) as [r1|] eqn:E1; [|discriminate].
    destruct (eat (Lit "M") r1) as [r2|] eqn:E2; [|discriminate].
    destruct (eat (Lit "G") r2) as [r3|] eqn:E3; [|discriminate].
    destruct (eat Sep r3) as [r4|] eqn:E4; [|discriminate].
    destruct (eat Digit r4) as [r5|] eqn:E5; [|discriminate].
    destruct (eat Digit r5) as [r6|] eqn:E6; [|discriminate].
    destruct (eat Digit r6) as [r7|] eqn:E7; [|discriminate].
    destruct (eat Digit r7) as [r8|] eqn:E8; [|discriminate].
    destruct (eat Digit r8) as [r9|] eqn:E9; [|discriminate].
    destruct (eat Digit r9) as [r10|] eqn:E10; [|discriminate].
    destruct (eat Digit r10) as [r11|] eqn:E11; [|discriminate].
    destruct (eat Digit r11) as [r12|] eqn:E12; [|discriminate].
    destruct (eat Sep r12) as [r13|] eqn:E13; [|discriminate].
    intros [= ->].
    apply eat_lit in E1, E2, E3. apply eat_sep in E4, E13.
    apply eat_digit in E5, E6, E7, E8, E9, E10, E11, E12.
    destruct E4 as (c1 & -> & H1), E13 as (c2 & -> & H2).
    destruct E5 as (t1 & -> & D1), E6 as (t2 & -> & D2), E7 as (t3 & -> & D3),
             E8 as (t4 & -> & D4), E9 as (t5 & -> & D5), E10 as (t6 & -> & D6),
             E11 as (t7 & -> & D7), E12 as (t8 & -> & D8).
    subst s r1 r2.
    exists ("IMG" +:+ String c1 (t1 +:+ t2 +:+ t3 +:+ t4 +:+ t5 +:+ t6 +:+ t7 +:+ t8
                                  +:+ String c2 "")).
    split.
    + rewrite !append_cons, append_nil, append_cons, !append_assoc, append_cons, append_nil. reflexivity.
    + exists c1, t1, t2, t3, t4, t5, t6, t7, t8, c2. repeat split; assumption.
  - intros (m & -> & c1 & t1 & t2 & t3 & t4 & t5 & t6 & t7 & t8 & c2 & -> & H1 & H2
            & D1 & D2 & D3 & D4 & D5 & D6 & D7 & D8).
    rewrite !append_cons, append_nil, append_cons, !append_assoc, append_cons, append_nil.
    unfold pattern. rewrite !match_atoms_cons. cbn [match_atoms].
    rewrite (proj2 (eat_lit "I" _ _) eq_refl), (proj2 (eat_lit "M" _ _) eq_refl),
      (proj2 (eat_lit "G" _ _) eq_refl).
    rewrite (proj2 (eat_sep _ _) (ex_intro _ c1 (conj eq_refl H1))).
    rewrite (proj2 (eat_digit _ _) (ex_intro _ t1 (conj eq_refl D1))).
    rewrite (proj2 (eat_digit _ _) (ex_intro _ t2 (conj eq_refl D2))).
    rewrite (proj2 (eat_digit _ _) (ex_intro _ t3 (conj eq_refl D3))).
    rewrite (proj2 (eat_digit _ _) (ex_intro _ t4 (conj eq_refl D4))).
    rewrite (proj2 (eat_digit _ _) (ex_intro _ t5 (conj eq_refl D5))).
    rewrite (proj2 (eat_digit _ _) (ex_intro _ t6 (conj eq_refl D6))).
    rewrite (proj2 (eat_digit _ _) (ex_intro _ t7 (conj eq_refl D7))).
    rewrite (proj2 (eat_digit _ _) (ex_intro _ t8 (conj eq_refl D8))).
    rewrite (proj2 (eat_sep _ _) (ex_intro _ c2 (conj eq_refl H2))).
    reflexivity.
Qed.

Lemma pattern_found s :
  (∀ m, re_search pattern s = Some m <->
        ∃ pre post,
          s = pre +:+ m +:+ post ∧ stamped m
          ∧ ∀ pre' m' post', s = pre' +:+ m' +:+ post' -> stamped m' ->
                             (String.length pre <= String.length pre')%nat)
  ∧ (re_search pattern s = None <->
     ∀ pre m post, s = pre +:+ m +:+ post -> ¬ stamped m).
Proof.
  split.
  - intros m. split.
    + intros H. destruct (re_search_leftmost _ _ _ H) as (pre & suf & post & Hs & Hm & Hb & Hno).
      apply match_pattern_shape in Hm. destruct Hm as (m' & -> & Hst).
      rewrite before_app in Hb. subst m'.
      exists pre, post. split; [assumption|]. split; [assumption|].
      intros pre' m' post' Hs' Hst'.
      destruct (Nat.le_gt_cases (String.length pre) (String.length pre')) as [|Hlt]; [assumption|].
      assert (Hm' : match_atoms pattern (m' +:+ post') = Some post')
        by (apply match_pattern_shape; exists m'; split; [reflexivity|assumption]).
      rewrite (Hno pre' (m' +:+ post') Hs' Hlt) in Hm'. discriminate.
    + intros (pre & post & -> & Hst & Hleft).
      assert (Hm : match_atoms pattern (m +:+ post) = Some post)
        by (apply match_pattern_shape; exists m; split; [reflexivity|assumption]).
      assert (Hno : ∀ pre' suf, pre +:+ m +:+ post = pre' +:+ suf ->
                                (String.length pre' < String.length pre)%nat ->
                                match_atoms pattern suf = None).
      { intros pre' suf Hs Hl. destruct (match_atoms pattern suf) as [post'|] eqn:E; [|reflexivity].
        apply match_pattern_shape in E. destruct E as (m' & -> & Hst').
        specialize (Hleft pre' m' post' Hs Hst'). lia. }
      clear Hleft. induction pre as [|c pre IH].
      * rewrite append_nil.
        destruct (m +:+ post) as [|c r] eqn:Em; cbn [re_search]; rewrite Hm;
          rewrite <- Em, before_app; reflexivity.
      * rewrite append_cons. cbn [re_search].
        rewrite (Hno "" (String c (pre +:+ m +:+ post))) by (reflexivity || (simpl; lia)).
        apply IH. intros pre' suf Hs Hl.
        apply (Hno (String c pre') suf); [rewrite !append_cons, Hs; reflexivity|simpl; lia].
  - split.
    + intros H pre m post Hs Hst.
      assert (Hm : match_atoms pattern (m +:+ post) = Some post)
        by (apply match_pattern_shape; exists m; split; [reflexivity|assumption]).
      rewrite (re_search_nowhere _ _ H pre (m +:+ post) Hs) in Hm. discriminate.
    + intros H. destruct (re_search pattern s) as [m|] eqn:E; [|reflexivity].
      destruct (re_search_leftmost _ _ _ E) as (pre & suf & post & Hs & Hm & Hb & _).
      apply match_pattern_shape in Hm. destruct Hm as (m' & -> & Hst).
      destruct (H pre m' post Hs Hst).
Qed.

(** X6. The names line 97 recognises.  [re.search] with the pattern reports
    a match exactly when the name reads, somewhere, [IMG], then [-] or
    [_], then eight decimal digits (of any script, as [\d] has them),
    then [-] or [_]; what it reports is the leftmost such place, and it
    reports none exactly when there is no such place. *)
Theorem filename_pattern_found s :
  (∀ m, re_search pattern s = Some m <->
        ∃ pre post,
          s = pre +:+ m +:+ post ∧ stamped m
          ∧ ∀ pre' m' post', s = pre' +:+ m' +:+ post' -> stamped m' ->
                             (String.length pre <= String.length pre')%nat)
  ∧ (re_search pattern s = None <->
     ∀ pre m post, s = pre +:+ m +:+ post -> ¬ stamped m).
Proof. apply pattern_found. Qed.

(** ** The eight digits *)

Lemma dec_digit_mod n : dec_digit (n mod 10) = dec_digit n.
Proof. unfold dec_digit. rewrite N.Div0.mod_mod. reflexivity. Qed.

(** [%m] on two ASCII digits: the two-digit months first, then the
    first digit alone. *)
Lemma dir_m_two a b r :
  a < 10 -> b < 10 ->
  dir_m (String (dec_digit a) (String (dec_digit b) r))
  = (if ((a =? 1) && (b <=? 2)) || ((a =? 0) && (1 <=? b)) then [(10 * a + b, r)] else [])
    ++ (if 1 <=? a then [(a, String (dec_digit b) r)] else []).
Proof.
  intros Ha Hb. apply digit_cases in Ha, Hb.
  destruct Ha as [-> | [-> | [-> | [-> | [-> | [-> | [-> | [-> | [-> | ->]]]]]]]]]; destruct Hb as [-> | [-> | [-> | [-> | [-> | [-> | [-> | [-> | [-> | ->]]]]]]]]]; reflexivity.
Qed.

(** [%d] on two ASCII digits: the two-digit days first, then the first
    digit alone. *)
Lemma dir_d_two a b r :
  a < 10 -> b < 10 ->
  dir_d (String (dec_digit a) (String (dec_digit b) r))
  = (if (1 <=? 10 * a + b) && (10 * a + b <=? 31) then [(10 * a + b, r)] else [])
    ++ (if 1 <=? a then [(a, String (dec_digit b) r)] else []).
Proof.
  intros Ha Hb. apply digit_cases in Ha, Hb.
  destruct Ha as [-> | [-> | [-> | [-> | [-> | [-> | [-> | [-> | [-> | ->]]]]]]]]]; destruct Hb as [-> | [-> | [-> | [-> | [-> | [-> | [-> | [-> | [-> | ->]]]]]]]]]; reflexivity.
Qed.

Lemma match_month_day f s :
  match_tokens [TDir "m"; TDir "d"] f s
  = '(v, r) ← dir_m s; '(v', r') ← dir_d r;
    [(mk_fields (f_year f) v v' (f_hour f) (f_minute f) (f_second f), r')].
Proof. reflexivity. Qed.

(** Four digits read as month and day: when the match reaches the end
    of the text, it is with the two digits of each. *)
Lemma match_month_day_digits f a b c d :
  a < 10 -> b < 10 -> c < 10 -> d < 10 ->
  match match_tokens [TDir "m"; TDir "d"] f
          (String (dec_digit a) (String (dec_digit b)
             (String (dec_digit c) (String (dec_digit d) "")))) with
  | (g, "") :: _ =>
    g = mk_fields (f_year f) (10 * a + b) (10 * c + d) (f_hour f) (f_minute f) (f_second f)
  | _ => True
  end.
Proof.
  intros Ha Hb Hc Hd. rewrite match_month_day, dir_m_two by assumption.
  destruct (((a =? 1) && (b <=? 2)) || ((a =? 0) && (1 <=? b))); destruct (1 <=? a);
    cbn [app]; rewrite ?bind_cons, ?bind_nil; cbv beta iota;
    rewrite ?dir_d_two by assumption;
    destruct ((1 <=? 10 * c + d) && (10 * c + d <=? 31)); destruct (1 <=? c);
    try destruct ((1 <=? 10 * b + c) && (10 * b + c <=? 31)); try destruct (1 <=? b);
    cbn [app]; rewrite ?bind_cons, ?bind_nil; cbn [app]; try exact I; reflexivity.
Qed.

Lemma pad2_digits n :
  n < 100 ->
  n / 10 < 10 ∧ n mod 10 < 10 ∧ 10 * (n / 10) + n mod 10 = n
  ∧ pad2 n = String (dec_digit (n / 10)) (String (dec_digit (n mod 10)) "").
Proof.
  intros Hn.
  pose proof (N.div_mod n 10 ltac:(discriminate)) as E.
  pose proof (N.mod_upper_bound n 10 ltac:(discriminate)) as B.
  split; [apply N.Div0.div_lt_upper_bound; lia|]. split; [assumption|].
  split; [lia|]. unfold pad2. rewrite dec_digit_mod. reflexivity.
Qed.

(** [strptime] with [%Y%m%d] on eight ASCII digits: the date they spell
    when it is a date of the calendar, [ValueError] otherwise. *)
Lemma strptime_eight_digits y m d :
  y < 10000 -> m < 100 -> d < 100 ->
  strptime (pad4 y +:+ pad2 m +:+ pad2 d) "%Y%m%d"
  = if valid_date y m d then Return (mk_datetime y m d 0 0 0) else Raise ValueError.
Proof.
  intros Hy Hm Hd. destruct (valid_date y m d) eqn:Hv; [apply strptime_date, Hv|].
  unfold strptime.
  change (tokenize false "%Y%m%d") with [TDir "Y"; TDir "m"; TDir "d"].
  change (forallb supported _) with true. cbv iota.
  change (match_tokens (TDir "Y" :: ?ts) ?f ?s)
    with ('(v, r) ← dir_Y s; match_tokens ts (mk_fields v (f_month f) (f_day f) (f_hour f) (f_minute f) (f_second f)) r).
  rewrite dir_Y_pad4 by assumption.
  rewrite mbind_one. cbv beta iota. cbn [f_month f_day f_hour f_minute f_second default_fields].
  destruct (pad2_digits m Hm) as (Ha & Hb & Em & ->).
  destruct (pad2_digits d Hd) as (Hc & Hd' & Ed & ->).
  rewrite !append_cons, append_nil.
  pose proof (match_month_day_digits (mk_fields y 1 1 0 0 0) _ _ _ _ Ha Hb Hc Hd') as H.
  destruct (match_tokens _ _ _) as [|[g [|c r]] rest]; try reflexivity.
  subst g. cbn [f_year f_month f_day f_hour f_minute f_second].
  rewrite Em, Ed. unfold datetime_new. rewrite Hv. reflexivity.
Qed.

(** A match of [%Y%m%d] sets no hour, minute or second. *)
Lemma match_date_keeps_time f s g r :
  (g, r) ∈ match_tokens [TDir "Y"; TDir "m"; TDir "d"] f s ->
  f_hour g = f_hour f ∧ f_minute g = f_minute f ∧ f_second g = f_second f.
Proof.
  change (match_tokens [TDir "Y"; TDir "m"; TDir "d"] f s)
    with ('(v, r1) ← dir_Y s; '(v', r2) ← dir_m r1; '(v'', r3) ← dir_d r2;
          [(mk_fields v v' v'' (f_hour f) (f_minute f) (f_second f), r3)]).
  intros H.
  apply list_elem_of_bind in H. destruct H as ([v r1] & H & _).
  apply list_elem_of_bind in H. destruct H as ([v' r2] & H & _).
  apply list_elem_of_bind in H. destruct H as ([v'' r3] & H & _).
  apply list_elem_of_singleton in H. injection H as -> ->. repeat split.
Qed.

(** What [strptime] returns for [%Y%m%d] is a date of the calendar, at
    midnight. *)
Lemma strptime_date_midnight text nd :
  strptime text "%Y%m%d" = Return nd ->
  valid_date (year nd) (month nd) (day nd) = true
  ∧ hour nd = 0 ∧ minute nd = 0 ∧ second nd = 0.
Proof.
  unfold strptime.
  change (tokenize false "%Y%m%d") with [TDir "Y"; TDir "m"; TDir "d"].
  change (forallb supported _) with true. cbv iota.
  destruct (match_tokens _ _ _) as [|[g [|c r]] rest] eqn:E; try discriminate.
  destruct (match_date_keeps_time default_fields text g "") as (Hh & Hm & Hs).
  { rewrite E. apply list_elem_of_here. }
  unfold datetime_new.
  destruct (valid_date _ _ _ && valid_time _ _ _) eqn:Ev; [|discriminate].
  intros [= <-]. cbn [year month day hour minute second].
  apply andb_true_iff in Ev. destruct Ev as [Ev _].
  rewrite Hh, Hm, Hs. repeat split; assumption || reflexivity.
Qed.

Lemma strptime_raises_value_error text fmt e : strptime text fmt = Raise e -> e = ValueError.
Proof.
  unfold strptime, datetime_new.
  destruct (forallb supported _); [|congruence].
  destruct (match_tokens _ _ _) as [|[g [|c r]] rest]; try congruence.
  destruct (valid_date _ _ _ && valid_time _ _ _); congruence.
Qed.

Lemma extract_date_spec filename :
  match re_search pattern filename with
  | None => _extract_date_from_filename filename = Return None
  | Some m =>
    (∀ y mo d,
        y < 10000 -> mo < 100 -> d < 100 ->
        group1 m = pad4 y +:+ pad2 mo +:+ pad2 d ->
        _extract_date_from_filename filename
        = if valid_date y mo d
          then Return (Some (mk_datetime y mo d 0 0 0))
          else Raise ValueError)
    ∧ (_extract_date_from_filename filename = Raise ValueError
       ∨ ∃ nd, _extract_date_from_filename filename = Return (Some nd)
               ∧ valid_date (year nd) (month nd) (day nd) = true
               ∧ hour nd = 0 ∧ minute nd = 0 ∧ second nd = 0)
  end.
Proof.
  destruct (re_search pattern filename) as [m|] eqn:E; [|apply extract_no_match, E].
  unfold _extract_date_from_filename. rewrite E. split.
  - intros y mo d Hy Hmo Hd Hg. rewrite Hg, strptime_eight_digits by assumption.
    destruct (valid_date y mo d); reflexivity.
  - destruct (strptime (group1 m) "%Y%m%d") as [nd|e] eqn:Es; cbn [rbind].
    + right. exists nd. split; [reflexivity|]. exact (strptime_date_midnight _ _ Es).
    + left. rewrite (strptime_raises_value_error _ _ _ Es). reflexivity.
Qed.

(** X7. The date of a filename, in full.  With no match the result is
    none.  With a match, when the eight digits of the match are ASCII
    digits that spell a year, a month and a day, the result is that date
    at midnight if it is a date of the calendar, and [ValueError]
    otherwise; whatever the digits (those of another script are
    matched too), the result is [ValueError] or a date of the calendar
    at midnight. *)
Theorem extract_date_characterised filename :
  match re_search pattern filename with
  | None => _extract_date_from_filename filename = Return None
  | Some m =>
    (∀ y mo d,
        y < 10000 -> mo < 100 -> d < 100 ->
        group1 m = pad4 y +:+ pad2 mo +:+ pad2 d ->
        _extract_date_from_filename filename
        = if valid_date y mo d
          then Return (Some (mk_datetime y mo d 0 0 0))
          else Raise ValueError)
    ∧ (_extract_date_from_filename filename = Raise ValueError
       ∨ ∃ nd, _extract_date_from_filename filename = Return (Some nd)
               ∧ valid_date (year nd) (month nd) (day nd) = true
               ∧ hour nd = 0 ∧ minute nd = 0 ∧ second nd = 0)
  end.
Proof. apply extract_date_spec. Qed.

(** ** Blocks written twice *)

Lemma exif_data_ext d1 d2 :
  thumbnail d1 = thumbnail d2 ->
  (∀ name, has_ifd name d1 = has_ifd name d2) ->
  (∀ name tag, field name tag d1 = field name tag d2) ->
  d1 = d2.
Proof.
  destruct d1 as [i1 t1], d2 as [i2 t2]. simpl. intros -> Hh Hf. f_equal.
  apply map_eq. intros name.
  specialize (Hh name). rewrite !has_ifd_lookup in Hh. simpl in Hh.
  destruct (i1 !! name) as [a|] eqn:E1, (i2 !! name) as [b|] eqn:E2;
    try discriminate; [|reflexivity].
  f_equal. apply map_eq. intros tag.
  specialize (Hf name tag). unfold field in Hf. simpl in Hf. rewrite E1, E2 in Hf. exact Hf.
Qed.

Lemma has_ifd_set_ifd name i d name' :
  has_ifd name' (set_ifd name i d) = has_ifd name' d || String.eqb name' name.
Proof.
  rewrite !has_ifd_lookup. unfold set_ifd. simpl. rewrite lookup_insert.
  destruct (decide (name = name')) as [->|Hn].
  - rewrite String.eqb_refl, orb_true_r. reflexivity.
  - destruct (String.eqb_spec name' name) as [->|_]; [contradiction|].
    rewrite orb_false_r. reflexivity.
Qed.

Lemma has_ifd_ensure name d name' :
  has_ifd name' (if negb (has_ifd name d) then set_ifd name ∅ d else d)
  = has_ifd name' d || String.eqb name' name.
Proof.
  destruct (has_ifd name d) eqn:H; simpl; [|apply has_ifd_set_ifd].
  destruct (String.eqb_spec name' name) as [->|_];
    [rewrite H; reflexivity|rewrite orb_false_r; reflexivity].
Qed.

Lemma has_ifd_set_tag name tag v d d' name' :
  set_tag name tag v d = Return d' -> has_ifd name' d' = has_ifd name' d.
Proof.
  unfold set_tag, get_ifd. destruct (ifds d !! name) as [i|] eqn:H; [|discriminate].
  simpl. intros [= <-]. rewrite has_ifd_set_ifd.
  destruct (String.eqb_spec name' name) as [->|_]; [|apply orb_false_r].
  rewrite has_ifd_lookup, H. reflexivity.
Qed.

Lemma set_date_fields_sections d nd d' :
  set_date_fields d nd = Return d' ->
  ∀ name, has_ifd name d' = has_ifd name d || String.eqb name "Exif" || String.eqb name "0th".
Proof.
  unfold set_date_fields. intros H name.
  destruct (set_tag "Exif" DateTimeOriginal _ _) as [d3|] eqn:H3; [|discriminate].
  simpl in H.
  destruct (set_tag "0th" DateTime _ d3) as [d4|] eqn:H4; [|discriminate].
  simpl in H.
  rewrite (has_ifd_set_tag _ _ _ _ _ name H), (has_ifd_set_tag _ _ _ _ _ name H4),
    (has_ifd_set_tag _ _ _ _ _ name H3), !has_ifd_ensure.
  reflexivity.
Qed.

(** X11. Lines 135-138 and what follows: the block written has an Exif and a
    0th section, made empty when the loaded block had none, and every
    section of the loaded block is still there. *)
Theorem apply_date_sections d nd d' :
  set_date_fields d nd = Return d' ->
  ∀ name, has_ifd name d' = has_ifd name d || String.eqb name "Exif" || String.eqb name "0th".
Proof. apply set_date_fields_sections. Qed.

(** X12. Writing a date into a block the program already wrote leaves only
    the last date: the result is the one of writing that date into the
    loaded block, and writing the same date again changes nothing. *)
Theorem apply_date_last_wins d nd1 nd2 d1 :
  set_date_fields d nd1 = Return d1 ->
  set_date_fields d1 nd2 = set_date_fields d nd2
  ∧ set_date_fields d1 nd1 = Return d1.
Proof.
  intros H1.
  assert (Hgen : ∀ nd, set_date_fields d1 nd = set_date_fields d nd).
  { intros nd.
    destruct (set_date_fields_spec d nd1) as (x & Hx & Ht1 & Hf1).
    rewrite H1 in Hx. injection Hx as <-.
    destruct (set_date_fields_spec d1 nd) as (d12 & E12 & Ht12 & Hf12).
    destruct (set_date_fields_spec d nd) as (d2 & E2 & Ht2 & Hf2).
    rewrite E12, E2. f_equal. apply exif_data_ext.
    - congruence.
    - intros name.
      rewrite (set_date_fields_sections _ _ _ E12 name), (set_date_fields_sections _ _ _ H1 name),
        (set_date_fields_sections _ _ _ E2 name).
      destruct (has_ifd name d), (String.eqb name "Exif"), (String.eqb name "0th"); reflexivity.
    - intros name tag. rewrite Hf12, Hf2, Hf1.
      destruct (is_date_field name tag); reflexivity. }
  split; [apply Hgen|]. rewrite Hgen. exact H1.
Qed.

(** ** Dates read and read again *)

Lemma strptime_valid text fmt dt :
  strptime text fmt = Return dt ->
  valid_date (year dt) (month dt) (day dt) = true
  ∧ valid_time (hour dt) (minute dt) (second dt) = true.
Proof.
  unfold strptime. destruct (forallb supported _); [|discriminate].
  destruct (match_tokens _ _ _) as [|[f [|c r]] rest]; try discriminate.
  unfold datetime_new.
  destruct (valid_date _ _ _ && valid_time _ _ _) eqn:E; [|discriminate].
  intros [= <-]. simpl. apply andb_true_iff in E. exact E.
Qed.

Lemma parse_field_valid v dt :
  parse_field v = Some dt ->
  valid_date (year dt) (month dt) (day dt) = true
  ∧ valid_time (hour dt) (minute dt) (second dt) = true.
Proof.
  unfold parse_field. destruct (decode v) as [t|]; simpl; [|discriminate].
  destruct (strptime t exif_format) as [x|] eqn:E; [|discriminate].
  intros [= <-]. exact (strptime_valid _ _ _ E).
Qed.

(** A filename date is a date of the calendar, at midnight. *)
Lemma extract_valid filename nd :
  _extract_date_from_filename filename = Return (Some nd) ->
  valid_date (year nd) (month nd) (day nd) = true
  ∧ hour nd = 0 ∧ minute nd = 0 ∧ second nd = 0.
Proof.
  intros H. pose proof (extract_date_spec filename) as C.
  destruct (re_search pattern filename) as [m|]; [|rewrite H in C; discriminate].
  destruct C as [_ [C|(nd' & C & Hv)]]; rewrite H in C; [discriminate|].
  injection C as <-. exact Hv.
Qed.

Section Reading.

Variable piexif_load : list Byte.byte -> result exif_data.
Variable piexif_dump : exif_data -> result (list Byte.byte).
Variable piexif_insert : list Byte.byte -> list Byte.byte -> result (list Byte.byte).

Abbreviation get_exif_date := (_get_exif_date piexif_load).
Abbreviation process := (process_image piexif_load piexif_dump piexif_insert).

(** X8. [_get_exif_date] says why it has no date: it prints nothing when it
    returns a date, and exactly one line when it returns none, which
    tells of a missing Exif section, of missing date fields, or of the
    exception it caught. *)
Theorem get_exif_date_explains p s :
  ∃ v o,
    get_exif_date p s = (Return v, s, o)
    ∧ match v with
      | Some _ => o = []
      | None =>
        o = [NoExifSection (path_name p)] ∨ o = [NoDateFields (path_name p)]
        ∨ ∃ e, o = [ErrorReading p e]
      end.
Proof.
  unfold _get_exif_date, try_except, bind, load.
  destruct (read_file s p) as [data|e]; cbn [rbind]; [|explain].
  destruct (piexif_load data) as [d|e]; [|explain].
  unfold read_date_fields, bind, lift, print, ret.
  rewrite !has_ifd_lookup. unfold get_ifd.
  destruct (ifds d !! "Exif") as [exif|]; simpl; [|explain].
  rewrite has_tag_lookup. unfold get_tag.
  destruct (exif !! DateTimeOriginal) as [v|]; simpl.
  - destruct (decode v) as [t|]; simpl; [|explain].
    destruct (strptime t exif_format); simpl; explain.
  - destruct (ifds d !! "0th") as [zeroth|]; simpl; [|explain].
    rewrite has_tag_lookup.
    destruct (zeroth !! DateTime) as [v|]; simpl; [|explain].
    destruct (decode v) as [t|]; simpl; [|explain].
    destruct (strptime t exif_format); simpl; explain.
Qed.

(** X9. A date [_get_exif_date] returns is a date and time that exist: a
    field that spells month 13, day 0, hour 24 or second 60 gives none. *)
Theorem embedded_date_is_valid p s dt :
  (get_exif_date p s).1.1 = Return (Some dt) ->
  valid_date (year dt) (month dt) (day dt) = true
  ∧ valid_time (hour dt) (minute dt) (second dt) = true.
Proof.
  destruct (get_exif_date_spec piexif_load p s) as [o ->]. simpl.
  unfold exif_date_of.
  destruct (files s !! p) as [data|]; [|discriminate].
  destruct (piexif_load data) as [d|]; [|discriminate].
  destruct (has_ifd "Exif" d); [|discriminate].
  unfold embedded_date.
  destruct (field "Exif" DateTimeOriginal d) as [v|].
  - intros [= H]. exact (parse_field_valid _ _ H).
  - destruct (field "0th" DateTime d) as [v|]; [|discriminate].
    intros [= H]. exact (parse_field_valid _ _ H).
Qed.

(** X10. A file that holds a block the program wrote for its name, the
    year of the name being 1000 or later, is left as it is by the
    program: the day read back is the day of the name, so the file is
    copied as it is and counted as [preserved].  (For an earlier year
    the field does not read back, see C8.) *)
Theorem written_block_is_preserved out p r s data d d' nd :
  _extract_date_from_filename (path_name p) = Return (Some nd) ->
  1000 <= year nd ->
  files s !! p = Some data ->
  piexif_load data = Return d' ->
  set_date_fields d nd = Return d' ->
  ∃ r' o, process out p r s
          = (Return r', write (path_join out (path_name p)) data s, o)
          ∧ preserved r' = preserved r + 1 ∧ updated r' = updated r
          ∧ added r' = added r ∧ failed r' = failed r.
Proof.
  intros Hfd Hy Hp Hl Hd.
  destruct (extract_valid _ _ Hfd) as (Hv & _).
  assert (Hdate : exif_date_of piexif_load s p
                  = Some (mk_datetime (year nd) (month nd) (day nd) 9 0 0)).
  { destruct (reread_written piexif_load p s data d' nd Hv Hp Hl (written_field _ _ _ Hd))
      as [o Ho].
    destruct (get_exif_date_spec piexif_load p s) as [o' Ho']. rewrite Ho' in Ho.
    apply N.leb_le in Hy. rewrite Hy in Ho. injection Ho as Ho _. exact Ho. }
  destruct (process_image_spec piexif_load piexif_dump piexif_insert out p r s _ data Hfd Hp)
    as (r' & s' & o & E & _ & H).
  rewrite Hdate in H. unfold reconcile, date_part, date_eqb in H. simpl in H.
  rewrite !N.eqb_refl in H. simpl in H. destruct H as [-> ->].
  exists (incr_preserved r), o. split; [exact E|]. repeat split; reflexivity.
Qed.

End Reading.

(** ** The text of the report *)

Lemma pretty_N_char_free c :
  (∀ n : N, pretty_N_char n ≠ c) -> ∀ x s,
  free_of c s = true -> free_of c (pretty_N_go x s) = true.
Proof.
  intros Hc x. induction (N.lt_wf_0 x) as [x _ IH]. intros s Hs.
  destruct (N.eq_dec x 0) as [->|Hx]; [rewrite pretty_N_go_0; exact Hs|].
  rewrite pretty_N_go_step by lia. apply IH.
  - apply N.div_lt; lia.
  - simpl. rewrite Hs, andb_true_r. apply negb_true_iff, Ascii.eqb_neq, Hc.
Qed.

Lemma pretty_N_char_no_newline (n : N) : pretty_N_char n ≠ ascii_of_N 10.
Proof. unfold pretty_N_char. repeat case_match; discriminate. Qed.

(** A number is printed on one line. *)
Lemma pretty_no_newline (n : N) : free_of (ascii_of_N 10) (pretty n) = true.
Proof.
  unfold pretty, pretty_N. case_decide; [reflexivity|].
  apply pretty_N_char_free; [apply pretty_N_char_no_newline|reflexivity].
Qed.

Lemma split_at c : ∀ u u' r r',
  free_of c u = true -> free_of c u' = true ->
  u +:+ String c r = u' +:+ String c r' -> u = u' ∧ r = r'.
Proof.
  induction u as [|a u IH]; intros [|a' u'] r r' Hu Hu' H;
    rewrite ?append_cons, ?append_nil in H; simpl in Hu, Hu'.
  - injection H as ->. split; reflexivity.
  - injection H as <- _. rewrite Ascii.eqb_refl in Hu'. discriminate.
  - injection H as -> _. rewrite Ascii.eqb_refl in Hu. discriminate.
  - injection H as <- H. apply andb_true_iff in Hu, Hu'.
    destruct (IH u' r r' (proj2 Hu) (proj2 Hu') H) as [-> ->]. split; reflexivity.
Qed.

Lemma pretty_line (a b : N) r r' :
  pretty a +:+ String (ascii_of_N 10) r = pretty b +:+ String (ascii_of_N 10) r' ->
  a = b ∧ r = r'.
Proof.
  intros H. apply split_at in H; try apply pretty_no_newline.
  destruct H as [H ->]. split; [|reflexivity]. exact (inj pretty _ _ H).
Qed.

(** X13. Lines 17-23: the text of a report tells its four counters; two
    reports that print the same are the same. *)
Theorem as_text_tells_counters r1 r2 : as_text r1 = as_text r2 <-> r1 = r2.
Proof.
  split; [|intros ->; reflexivity].
  destruct r1 as [u1 a1 f1 p1], r2 as [u2 a2 f2 p2].
  unfold as_text, newline. simpl updated. simpl added. simpl failed. simpl preserved.
  rewrite !append_cons, !append_nil. intros H.
  repeat (injection H as H). apply pretty_line in H. destruct H as [-> H].
  repeat (injection H as H). apply pretty_line in H. destruct H as [-> H].
  repeat (injection H as H). apply pretty_line in H. destruct H as [-> H].
  repeat (injection H as H). apply pretty_line in H. destruct H as [-> _].
  reflexivity.
Qed.

(** ** More theorems at concrete inputs *)

(** [main_prints_report] on the photo and a file with no date in its
    name. *)
Lemma main_prints_report_witness :
  ∃ r' s' o,
    Toy.main [Toy.photo; Toy.other] Toy.day (Toy.disk "")
    = (Return tt, s',
       Found 2 :: o
       ++ [Complete ["project"; "output"; "20201107_000000"]; Text "Update Report:";
           Text (as_text r')])
    ∧ updated r' + added r' + failed r' + preserved r' = 1.
Proof.
  destruct (main_prints_report Toy.load Toy.dump Toy.insert (Toy.glob [Toy.photo; Toy.other])
              ["project"] Toy.day (Toy.disk "")) as (r' & s' & o & E & H & _).
  { vm_compute. discriminate. }
  { repeat constructor; try (vm_compute; reflexivity); eexists; vm_compute; reflexivity. }
  exists r', s', o. split; [exact E|exact H].
Defined.

(** [main_copies_every_file] on the same run. *)
Lemma main_copies_every_file_witness :
  (Toy.main [Toy.photo; Toy.other] Toy.day (Toy.disk "")).1.1 = Return tt
  ∧ is_Some (files (Toy.main [Toy.photo; Toy.other] Toy.day (Toy.disk "")).1.2
             !! ["project"; "output"; "20201107_000000"; "random_photo.jpg"]).
Proof.
  destruct (main_copies_every_file Toy.load Toy.dump Toy.insert (Toy.glob [Toy.photo; Toy.other])
              ["project"] Toy.day (Toy.disk "")) as [E H].
  { vm_compute. discriminate. }
  { repeat constructor; try (vm_compute; reflexivity); eexists; vm_compute; reflexivity. }
  split; [exact E|]. apply (H Toy.other). right. left. reflexivity.
Defined.

(** [main_aborts_on_invalid_name] on the photo followed by a file named
    after month 13. *)
Lemma main_aborts_on_invalid_name_witness :
  ∃ s' o,
    Toy.main [Toy.photo; Toy.smarch] Toy.day Toy.smarch_disk
    = (Raise ValueError, s', Found 2 :: o ++ [Processing "IMG-20201307-WA0029.jpg"])
    ∧ is_Some (files s' !! ["project"; "output"; "20201107_000000"; "IMG-20201107-WA0029.jpg"]).
Proof.
  destruct (main_aborts_on_invalid_name Toy.load Toy.dump Toy.insert
              (Toy.glob [Toy.photo; Toy.smarch]) ["project"] Toy.day Toy.smarch_disk
              [Toy.photo] Toy.smarch [] ValueError) as (s' & o & E & H).
  { vm_compute. reflexivity. }
  { repeat constructor; try (vm_compute; reflexivity); eexists; vm_compute; reflexivity. }
  { vm_compute. reflexivity. }
  exists s', o. split; [exact E|]. apply (H Toy.photo). left. reflexivity.
Defined.

(** [apply_date_sections] on a block with no section. *)
Lemma apply_date_sections_witness :
  ∃ d',
    set_date_fields Toy.bare_block Toy.day = Return d'
    ∧ has_ifd "Exif" d' = true ∧ has_ifd "0th" d' = true ∧ has_ifd "GPS" d' = false.
Proof.
  destruct (set_date_fields Toy.bare_block Toy.day) as [d'|e] eqn:E;
    [|vm_compute in E; discriminate].
  exists d'. split; [reflexivity|].
  rewrite !(apply_date_sections Toy.bare_block Toy.day d' E).
  repeat split; reflexivity.
Defined.

(** [apply_date_last_wins] on an empty block, with two days. *)
Lemma apply_date_last_wins_witness :
  set_date_fields Toy.empty_block Toy.day
  = Return (Toy.block (encode_utf8 "2020:11:07 09:00:00"))
  ∧ set_date_fields (Toy.block (encode_utf8 "2020:11:07 09:00:00")) Toy.new_year
    = set_date_fields Toy.empty_block Toy.new_year.
Proof.
  assert (H : set_date_fields Toy.empty_block Toy.day
              = Return (Toy.block (encode_utf8 "2020:11:07 09:00:00")))
    by (vm_compute; reflexivity).
  split; [exact H|].
  exact (proj1 (apply_date_last_wins Toy.empty_block Toy.day Toy.new_year _ H)).
Defined.

(** [embedded_date_is_valid] on a photo with a date. *)
Lemma embedded_date_is_valid_witness :
  (_get_exif_date Toy.load Toy.photo (Toy.disk "2020:11:07 14:22:01")).1.1
  = Return (Some (mk_datetime 2020 11 7 14 22 1))
  ∧ valid_date 2020 11 7 = true ∧ valid_time 14 22 1 = true.
Proof.
  assert (H : (_get_exif_date Toy.load Toy.photo (Toy.disk "2020:11:07 14:22:01")).1.1
              = Return (Some (mk_datetime 2020 11 7 14 22 1))) by (vm_compute; reflexivity).
  split; [exact H|].
  exact (embedded_date_is_valid Toy.load Toy.photo _ _ H).
Defined.

(** [written_block_is_preserved] on the photo after its update. *)
Lemma written_block_is_preserved_witness :
  set_date_fields Toy.empty_block Toy.day
  = Return (Toy.block (encode_utf8 "2020:11:07 09:00:00"))
  ∧ ∃ r' o, Toy.process_image ["out"] Toy.photo (mk_report 3 2 1 4)
              (Toy.disk "2020:11:07 09:00:00")
            = (Return r',
               write Toy.copy (Toy.image "2020:11:07 09:00:00") (Toy.disk "2020:11:07 09:00:00"),
               o)
            ∧ preserved r' = 5 ∧ updated r' = 3 ∧ added r' = 2 ∧ failed r' = 1.
Proof.
  assert (H : set_date_fields Toy.empty_block Toy.day
              = Return (Toy.block (encode_utf8 "2020:11:07 09:00:00")))
    by (vm_compute; reflexivity).
  split; [exact H|].
  apply (written_block_is_preserved Toy.load Toy.dump Toy.insert ["out"] Toy.photo
           (mk_report 3 2 1 4)
           (Toy.disk "2020:11:07 09:00:00") (Toy.image "2020:11:07 09:00:00")
           Toy.empty_block (Toy.block (encode_utf8 "2020:11:07 09:00:00")) Toy.day);
    try exact H; try (vm_compute; reflexivity).
  vm_compute. discriminate.
Defined.

(** ** Edges of the update and of the loop body *)

Section Edges.

Variable piexif_load : list Byte.byte -> result exif_data.
Variable piexif_dump : exif_data -> result (list Byte.byte).
Variable piexif_insert : list Byte.byte -> list Byte.byte -> result (list Byte.byte).

Abbreviation update_exif_date := (_update_exif_date piexif_load piexif_dump piexif_insert).
Abbreviation process := (process_image piexif_load piexif_dump piexif_insert).

(** X14. [_update_exif_date] either writes the output and prints nothing, or
    writes nothing and prints one line with the exception it caught; it
    returns [True] exactly when the file loads, the block with the date
    dumps and the bytes insert into the image. *)
Theorem update_exif_date_outcome p nd out s :
  (∃ data d d' exif_bytes new_data,
      files s !! p = Some data ∧ piexif_load data = Return d
      ∧ set_date_fields d nd = Return d' ∧ piexif_dump d' = Return exif_bytes
      ∧ piexif_insert exif_bytes data = Return new_data
      ∧ update_exif_date p nd out s = (Return true, write out new_data s, []))
  ∨ ((∃ e, update_exif_date p nd out s = (Return false, s, [ErrorUpdating p e]))
     ∧ ¬ ∃ data d d' exif_bytes new_data,
           files s !! p = Some data ∧ piexif_load data = Return d
           ∧ set_date_fields d nd = Return d' ∧ piexif_dump d' = Return exif_bytes
           ∧ piexif_insert exif_bytes data = Return new_data).
Proof.
  rewrite update_exif_date_spec. unfold updated_bytes, read_file.
  destruct (files s !! p) as [data|].
  2: { right. split; [destruct (decide (p ∈ dirs s)); eexists; reflexivity|].
       intros (? & ? & ? & ? & ? & H & _). discriminate. }
  cbn [rbind].
  destruct (piexif_load data) as [d|e] eqn:Hl; cbn [rbind].
  2: { right. split; [eexists; reflexivity|].
       intros (? & ? & ? & ? & ? & [= <-] & H & _). congruence. }
  destruct (set_date_fields_spec d nd) as (d' & Hd & _). rewrite Hd. cbn [rbind].
  destruct (piexif_dump d') as [eb|e] eqn:Hdump; cbn [rbind].
  2: { right. split; [eexists; reflexivity|].
       intros (? & ? & ? & ? & ? & [= <-] & H1 & H2 & H3 & _). congruence. }
  destruct (piexif_insert eb data) as [nb|e] eqn:Hins.
  - left. exists data, d, d', eb, nb. repeat split; assumption || reflexivity.
  - right. split; [eexists; reflexivity|].
    intros (? & ? & ? & ? & ? & [= <-] & H1 & H2 & H3 & H4). congruence.
Qed.

(** X15. A listed path with no file behind it stops the loop body: the
    read and the update fail and are caught, then [copy2] raises, which
    nothing catches: [IsADirectoryError] when the path is a directory,
    [FileNotFoundError] when nothing is there.  No file is written and
    no counter is returned. *)
Theorem missing_file_raises out p r s :
  files s !! p = None ->
  raises (_extract_date_from_filename (path_name p)) = false ->
  ∃ o, process out p r s
       = (Raise (if decide (p ∈ dirs s) then IsADirectoryError else FileNotFoundError), s, o).
Proof.
  intros Hp Hr.
  set (e := if decide (p ∈ dirs s) then IsADirectoryError else FileNotFoundError).
  assert (He : read_file s p = Raise e).
  { unfold read_file, e. rewrite Hp. destruct (decide (p ∈ dirs s)); reflexivity. }
  assert (Hc : ∀ dst, copy2 p dst s = (Raise e, s, []))
    by (intros dst; unfold copy2; rewrite He; reflexivity).
  unfold process_image, bind, print, lift, ret.
  destruct (_extract_date_from_filename (path_name p)) as [[d|]|e']; [| |discriminate];
    cbv beta iota.
  - destruct (get_exif_date_spec piexif_load p s) as [o1 ->].
    unfold exif_date_of. rewrite Hp. cbv beta iota.
    rewrite update_exif_date_spec. unfold updated_bytes. rewrite He. cbn [rbind].
    rewrite Hc. eexists. reflexivity.
  - rewrite Hc. eexists. reflexivity.
Qed.

(** X16. Through the files, for a codec that keeps the date-time original
    field it is given: when the update of a file succeeds for a date
    whose year is 1000 or later, reading the output copy gives the date
    of the name at 09:00:00. *)
Theorem updated_copy_reads_back p out s data d d' exif_bytes new_data d'' nd :
  valid_date (year nd) (month nd) (day nd) = true ->
  1000 <= year nd ->
  files s !! p = Some data -> piexif_load data = Return d ->
  set_date_fields d nd = Return d' ->
  piexif_dump d' = Return exif_bytes -> piexif_insert exif_bytes data = Return new_data ->
  piexif_load new_data = Return d'' ->
  field "Exif" DateTimeOriginal d'' = field "Exif" DateTimeOriginal d' ->
  update_exif_date p nd out s = (Return true, write out new_data s, [])
  ∧ ∃ o, _get_exif_date piexif_load out (write out new_data s)
         = (Return (Some (mk_datetime (year nd) (month nd) (day nd) 9 0 0)),
            write out new_data s, o).
Proof.
  intros Hv Hy Hp Hl Hd Hdump Hins Hback Hkeep.
  destruct (round_trip_file piexif_load piexif_dump piexif_insert p out s data d d'
              exif_bytes new_data d'' nd Hv Hp Hl Hd Hdump Hins Hback Hkeep) as [Hu [o Ho]].
  split; [exact Hu|]. exists o. rewrite Ho.
  apply N.leb_le in Hy. rewrite Hy. reflexivity.
Qed.

End Edges.

(** [updated_copy_reads_back] on the photo, with the small codec. *)
Lemma updated_copy_reads_back_witness :
  _update_exif_date Toy.load Toy.dump Toy.insert Toy.photo Toy.day Toy.copy (Toy.disk "")
  = (Return true, write Toy.copy (Toy.image "2020:11:07 09:00:00") (Toy.disk ""), [])
  ∧ ∃ o, _get_exif_date Toy.load Toy.copy
           (write Toy.copy (Toy.image "2020:11:07 09:00:00") (Toy.disk ""))
         = (Return (Some (mk_datetime 2020 11 7 9 0 0)),
            write Toy.copy (Toy.image "2020:11:07 09:00:00") (Toy.disk ""), o).
Proof.
  apply (updated_copy_reads_back Toy.load Toy.dump Toy.insert Toy.photo Toy.copy (Toy.disk "")
           (Toy.image "") Toy.empty_block (Toy.block (encode_utf8 "2020:11:07 09:00:00"))
           (encode_utf8 "2020:11:07 09:00:00") (Toy.image "2020:11:07 09:00:00")
           (Toy.block (encode_utf8 "2020:11:07 09:00:00")) Toy.day);
    try (vm_compute; reflexivity).
  vm_compute. discriminate.
Defined.

(** [missing_file_raises] on a directory listed among the photos. *)
Lemma missing_file_raises_witness :
  files Toy.album_disk !! Toy.album = None
  ∧ ∃ o, Toy.process_image ["out"] Toy.album new_report Toy.album_disk
         = (Raise IsADirectoryError, Toy.album_disk, o).
Proof.
  assert (H : files Toy.album_disk !! Toy.album = None) by (vm_compute; reflexivity).
  split; [exact H|].
  apply (missing_file_raises Toy.load Toy.dump Toy.insert ["out"] _ new_report _ H).
  vm_compute. reflexivity.
Defined.
